(** * A shallow embedding of the VQ-VAE training script [train_vqvae.py]

    The script drives an image autoencoder with a vector-quantised
    bottleneck.  Two layers are embedded:

    - [VQ]: the vector quantiser and the criterion of [models/vqvae.py].
      That module is imported by the script but its text is not part of
      the sources at hand, so it is modelled from the written
      specification.  Tensors hold rationals; every scalar carries its
      derivative along one direction (forward-mode dual numbers), which
      is enough to speak about [stop_gradient] and the straight-through
      estimator.
    - [Train]: the [__main__] block and [main] of [train_vqvae.py],
      translated statement by statement over an explicit world (file
      system, random state, event log) and the local variables of
      [main] (model parameters, gradients, optimiser state, meters).
      The networks, automatic differentiation, the optimiser, the
      generator and the datasets are parameters ([Backend]).  The device,
      the image transform, the progress bars and the worker processes of
      the loaders have no effect on what is stated here and are left
      out; the calls to the writer and the loggers are recorded as
      events. *)

From Stdlib Require Import QArith Qround.
From stdpp Require Import gmap strings list fin_maps pretty.

Local Open Scope Q_scope.

(** ** Exceptions and fallible computations *)

(** The Python exceptions that the embedded code can raise. *)
Inductive exn : Type :=
| ValueError (msg : string)
| NameError (name : string)
| UnboundLocalError (name : string)
| TypeError (msg : string)
| FileNotFoundError (path : list string)
| FileExistsError (path : list string)
| NotADirectoryError (path : list string)
| IsADirectoryError (path : list string)
| AttributeError (name : string)
| RuntimeError (msg : string).

Inductive res (A : Type) : Type :=
| Ok (a : A)
| Err (e : exn).
Arguments Ok {A} a.
Arguments Err {A} e.

Definition res_bind {A B : Type} (m : res A) (k : A -> res B) : res B :=
  match m with
  | Ok a => k a
  | Err e => Err e
  end.

Fixpoint res_mapM {A B : Type} (f : A -> res B) (l : list A) : res (list B) :=
  match l with
  | [] => Ok []
  | a :: l' =>
      res_bind (f a) (fun b => res_bind (res_mapM f l') (fun bs => Ok (b :: bs)))
  end.

(** ** Vector quantiser and criterion *)

Module VQ.

(** A scalar of a tensor: its value and its derivative along the
    direction in which the enclosing computation is differentiated. *)
Record dual : Type := Dual { val : Q; tan : Q }.

Definition dconst (c : Q) : dual := Dual c 0.
Definition dadd (a b : dual) : dual := Dual (val a + val b) (tan a + tan b).
Definition dsub (a b : dual) : dual := Dual (val a - val b) (tan a - tan b).
Definition dmul (a b : dual) : dual :=
  Dual (val a * val b) (tan a * val b + val a * tan b).
Definition dscale (c : Q) (a : dual) : dual := Dual (c * val a) (c * tan a).

(** Modelled from the spec: [stop_gradient] (a detached view) keeps the
    value and blocks the derivative. *)
Definition stop_gradient (a : dual) : dual := Dual (val a) 0.

Abbreviation vec := (list dual) (only parsing).

(** Squared Euclidean distance between the values of two vectors.  The
    argmin is not differentiable, so only values take part. *)
Fixpoint sq_dist (x y : vec) : Q :=
  match x, y with
  | a :: x', b :: y' => (val a - val b) * (val a - val b) + sq_dist x' y'
  | _, _ => 0
  end.

(** [argmin_from i best bd ds]: scan the distances [ds], whose first
    element has index [i]; [best] is the index of the smallest distance
    [bd] seen so far.  A later index replaces it only when strictly
    smaller, so the lowest index wins a tie. *)
Fixpoint argmin_from (i best : nat) (bd : Q) (ds : list Q) : nat :=
  match ds with
  | [] => best
  | d :: ds' =>
      if Qlt_le_dec d bd then argmin_from (S i) i d ds'
      else argmin_from (S i) best bd ds'
  end.

Definition argmin (ds : list Q) : option nat :=
  match ds with
  | [] => None
  | d :: ds' => Some (argmin_from 1 0%nat d ds')
  end.

Abbreviation codebook := (list vec) (only parsing).
Abbreviation grid := (list vec) (only parsing).

(** Modelled from the spec: the straight-through estimator,
    [latent + stop_gradient(quantized - latent)], coordinate by
    coordinate. *)
Fixpoint straight_through (z q : vec) : vec :=
  match z, q with
  | a :: z', b :: q' => dadd a (stop_gradient (dsub b a)) :: straight_through z' q'
  | _, _ => []
  end.

(** What the quantiser returns for one position: the index chosen, the
    codebook row gathered at that index, and the straight-through value
    handed to the decoder. *)
Record quantized : Type := Quantized {
  q_index : nat;
  q_selected : vec;
  q_output : vec
}.

(** Modelled from the spec: the quantiser of [models/vqvae.py] at one
    spatial position.  The latent vector must have the dimension of the
    codebook rows, and the codebook must have a row to choose. *)
Definition quantize_vec (cb : codebook) (z : vec) : res quantized :=
  if forallb (fun row => Nat.eqb (length row) (length z)) cb then
    match argmin (map (sq_dist z) cb) with
    | Some i =>
        match cb !! i with
        | Some row => Ok (Quantized i row (straight_through z row))
        | None => Err (RuntimeError "index out of range")
        end
    | None => Err (RuntimeError "argmin of an empty codebook")
    end
  else Err (RuntimeError "shape mismatch").

(** Modelled from the spec: the quantiser on a latent grid, every
    position on its own. *)
Definition quantize (cb : codebook) (zs : grid) : res (list quantized) :=
  res_mapM (quantize_vec cb) zs.

(** The dimension check of the quantiser. *)
Definition well_shaped (cb : codebook) (z : vec) : Prop :=
  cb <> [] /\ Forall (fun row => length row = length z) cb.

(** *** Criterion *)

Definition dsum (l : list dual) : dual := foldr dadd (dconst 0) l.

Definition sq_err (a b : dual) : dual := dmul (dsub a b) (dsub a b).

Fixpoint sq_errs (x y : list dual) : list dual :=
  match x, y with
  | a :: x', b :: y' => sq_err a b :: sq_errs x' y'
  | _, _ => []
  end.

(** Mean squared error of two flat tensors.  The shapes must agree, and
    the mean of no element at all has no rational value. *)
Definition mse (x y : list dual) : res dual :=
  if negb (Nat.eqb (length x) (length y)) then Err (RuntimeError "shape mismatch")
  else if Nat.eqb (length x) 0 then Err (RuntimeError "mean of an empty tensor")
  else Ok (dscale (1 / inject_Z (Z.of_nat (length x))) (dsum (sq_errs x y))).

Definition shape (g : list vec) : list nat := map length g.

Definition flatten (g : list vec) : list dual := concat g.

Definition mse_grid (x y : list vec) : res dual :=
  if bool_decide (shape x = shape y) then mse (flatten x) (flatten y)
  else Err (RuntimeError "shape mismatch").

Definition detach (g : list vec) : list vec := map (map stop_gradient) g.

(** The four scalars of the criterion. *)
Record losses : Type := Losses {
  total_loss : dual;
  reconstruction_loss : dual;
  vq_loss : dual;
  commitment_loss : dual
}.

(** Modelled from the spec: the criterion of [models/vqvae.py],
    [Criterion(beta)(images, encoder_output, quantized, reconstruction)].
    The reconstruction loss is the mean squared error between the images
    and their reconstruction, the codebook loss compares the quantised
    vectors with the detached latents, the commitment loss compares the
    latents with the detached quantised vectors, and the total is
    reconstruction + vq + beta * commitment. *)
Definition Criterion (beta : Q) (images : list vec) (latent quant : grid)
    (reconstruction : list vec) : res losses :=
  res_bind (mse_grid reconstruction images) (fun rl =>
  res_bind (mse_grid quant (detach latent)) (fun vl =>
  res_bind (mse_grid latent (detach quant)) (fun cl =>
  Ok (Losses (dadd (dadd rl vl) (dscale beta cl)) rl vl cl)))).

End VQ.

(** ** The training script *)

Module Train.

Import VQ.

(** *** A state-and-exception monad

    A computation runs on a state and either returns a value or raises;
    the state reached when the exception is raised is kept, since what
    was done before a failure stays done. *)
Definition M (S A : Type) : Type := S -> res A * S.

Definition ret {S A : Type} (a : A) : M S A := fun s => (Ok a, s).

Definition bind {S A B : Type} (m : M S A) (k : A -> M S B) : M S B :=
  fun s =>
    match m s with
    | (Ok a, s') => k a s'
    | (Err e, s') => (Err e, s')
    end.

Definition throw {S A : Type} (e : exn) : M S A := fun s => (Err e, s).

Definition get {S : Type} : M S S := fun s => (Ok s, s).

Definition modify {S : Type} (f : S -> S) : M S unit := fun s => (Ok tt, f s).

Definition lift_res {S A : Type} (r : res A) : M S A := fun s => (r, s).

#[export] Instance M_ret {S : Type} : MRet (M S) := fun A a => ret a.
#[export] Instance M_bind {S : Type} : MBind (M S) := fun A B k m => bind m k.

(** An [if] without [else]. *)
Definition when_ {S : Type} (b : bool) (m : M S unit) : M S unit :=
  if b then m else ret tt.

(** A [for] loop over a list. *)
Fixpoint for_each {S A : Type} (l : list A) (body : A -> M S unit) : M S unit :=
  match l with
  | [] => ret tt
  | x :: l' => body x;; for_each l' body
  end.

(** *** Paths *)

(** A relative path as its components, outermost first. *)
Abbreviation path := (list string) (only parsing).

(** [pathlib]'s [/] with a single component on the right. *)
Definition path_div (p : path) (name : string) : path := p ++ [name].

Definition path_parent (p : path) : path := removelast p.

(** [str(path)] *)
Definition path_str (p : path) : string := String.concat "/" p.

(** *** Command-line arguments *)

(** The namespace built by [argparse], together with the attributes that
    the script adds to it later; those are absent until assigned. *)
Record args : Type := Args {
  dataset : string;
  experiment_name : option string;
  use_cuda : bool;
  seed : Z;
  batch_size : Z;
  num_epoch : Z;
  lr : Q;
  hidden_channels : Z;
  num_embeddings : Z;
  embedding_dim : Z;
  beta : Q;
  experiment_root : option string;
  experiment_log_path : option string;
  experiment_model_path : option string;
  in_channels : option Z
}.

Definition set_experiment_root (a : args) (v : string) : args :=
  Args (dataset a) (experiment_name a) (use_cuda a) (seed a) (batch_size a)
    (num_epoch a) (lr a) (hidden_channels a) (num_embeddings a)
    (embedding_dim a) (beta a) (Some v) (experiment_log_path a)
    (experiment_model_path a) (in_channels a).

Definition set_experiment_log_path (a : args) (v : string) : args :=
  Args (dataset a) (experiment_name a) (use_cuda a) (seed a) (batch_size a)
    (num_epoch a) (lr a) (hidden_channels a) (num_embeddings a)
    (embedding_dim a) (beta a) (experiment_root a) (Some v)
    (experiment_model_path a) (in_channels a).

Definition set_experiment_model_path (a : args) (v : string) : args :=
  Args (dataset a) (experiment_name a) (use_cuda a) (seed a) (batch_size a)
    (num_epoch a) (lr a) (hidden_channels a) (num_embeddings a)
    (embedding_dim a) (beta a) (experiment_root a) (experiment_log_path a)
    (Some v) (in_channels a).

Definition set_in_channels (a : args) (v : Z) : args :=
  Args (dataset a) (experiment_name a) (use_cuda a) (seed a) (batch_size a)
    (num_epoch a) (lr a) (hidden_channels a) (num_embeddings a)
    (embedding_dim a) (beta a) (experiment_root a) (experiment_log_path a)
    (experiment_model_path a) (Some v).

(** The names that the [__main__] block binds at module level and that
    [main] can see as globals.  A name is [None] while unbound. *)
Record globals : Type := Globals {
  g_experiment_root : option path;
  g_experiment_log_path : option path;
  g_experiment_model_path : option path
}.

(** Nothing bound: [main] imported and called from another module. *)
Definition no_globals : globals := Globals None None None.

(** *** External collaborators *)

Abbreviation image := vec (only parsing).
Abbreviation batch := (list image) (only parsing).

(** The numeric back end and the data the script consumes through
    interfaces: the networks around the quantiser, automatic
    differentiation, the optimiser, the random generator and the
    datasets. *)
Class Backend : Type := {
  params : Type;
  grads : Type;
  opt_state : Type;
  rng_state : Type;
  (** the generator state that seeding with an integer yields *)
  seed_rng : Z -> rng_state;
  (** [datasets.CIFAR10] / [datasets.MNIST] with the transform applied *)
  load_dataset : string -> bool -> list image;
  (** the permutation drawn by a shuffling loader *)
  shuffle : rng_state -> list image -> list image * rng_state;
  (** [Model(in_channels, hidden_channels, num_embeddings, embedding_dim)] *)
  model_init : rng_state -> Z -> Z -> Z -> Z -> params * rng_state;
  encoder : params -> bool -> batch -> grid;
  decoder : params -> bool -> grid -> list image;
  codebook_of : params -> codebook;
  (** gradient of the total loss, for a coefficient beta and a mode, with
      respect to the parameters *)
  autograd : Q -> bool -> params -> batch -> grads;
  grads_add : grads -> grads -> grads;
  (** [optim.Adam(model.parameters(), lr)] and one step of it *)
  adam_init : Q -> opt_state;
  adam_step : opt_state -> params -> option grads -> opt_state * params
}.

Section WithBackend.

Context {B : Backend}.

(** *** World *)

Inductive content : Type :=
| ConfigJson (a : args)        (* [json.dump(vars(args), ...)] *)
| StateDict (p : params).       (* [torch.save(model.state_dict(), ...)] *)

Inductive node : Type :=
| Dir
| File (c : content).

Record meter : Type := Meter { m_sum : Q; m_count : Z }.

(** Calls to the collaborators, in the order in which they are made. *)
Inductive event : Type :=
| EvPrintArgs (a : args)
| EvPrintModel (p : params)
| EvWriter (logdir : string)
| EvHparams (a : args)
| EvDataset (name : string) (is_train : bool)
| EvModelTrain
| EvModelEval
| EvForward (grad_enabled : bool) (p : params) (images : batch)
| EvZeroGrad
| EvBackward
| EvOptimizerStep
| EvMeterReset (tag : string)
| EvMeterUpdate (tag name : string) (value : Q) (n : Z)
| EvMeterWrite (tag : string) (epoch : nat) (m : gmap string meter)
| EvImageWrite (images reconstruction : list image) (epoch : nat) (tag : string)
| EvVQWrite (weight : codebook) (epoch : nat)
| EvSave (p : params) (file : path).

Record world : Type := World {
  fs : gmap path node;
  rng : rng_state;
  log : list event
}.

Definition log_event (e : event) : M world unit :=
  modify (fun w => World (fs w) (rng w) (log w ++ [e])).

(** [Path.exists()] *)
Definition path_exists (p : path) : M world bool :=
  fun w => (Ok (bool_decide (is_Some (fs w !! p))), w).

(** What stands in the way of creating an entry at [p]: its parent must
    be a directory.  The working directory, [[]], always is. *)
Definition parent_error (f : gmap path node) (p : path) : option exn :=
  match path_parent p with
  | [] => None
  | q =>
      match f !! q with
      | Some Dir => None
      | Some (File _) => Some (NotADirectoryError p)
      | None => Some (FileNotFoundError p)
      end
  end.

(** [Path.mkdir()], without [parents] and without [exist_ok]. *)
Definition mkdir (p : path) : M world unit :=
  fun w =>
    match fs w !! p with
    | Some _ => (Err (FileExistsError p), w)
    | None =>
        match parent_error (fs w) p with
        | Some e => (Err e, w)
        | None => (Ok tt, World (<[p := Dir]> (fs w)) (rng w) (log w))
        end
    end.

(** Opening [p] for writing and storing [c] in it. *)
Definition write_file (p : path) (c : content) : M world unit :=
  fun w =>
    match fs w !! p with
    | Some Dir => (Err (IsADirectoryError p), w)
    | _ =>
        match parent_error (fs w) p with
        | Some e => (Err e, w)
        | None => (Ok tt, World (<[p := File c]> (fs w)) (rng w) (log w))
        end
    end.

(** Modelled from the spec: [set_random_seed] of [utils], the seeding
    utility.  The global generator state becomes a function of the seed
    alone. *)
Definition set_random_seed (s : Z) : M world unit :=
  modify (fun w => World (fs w) (seed_rng s) (log w)).

(** *** Data loaders *)

(** Consecutive slices of [n] elements; the last one holds what is left
    and may be shorter.  [acc] is the slice being filled, in reverse. *)
Fixpoint chunks {A : Type} (n : nat) (acc : list A) (l : list A) : list (list A) :=
  match l with
  | [] => match acc with [] => [] | _ => [rev acc] end
  | x :: l' =>
      if Nat.eqb (length (x :: acc)) n then rev (x :: acc) :: chunks n [] l'
      else chunks n (x :: acc) l'
  end.

Record dataloader : Type := Loader {
  dl_dataset : list image;
  dl_batch_size : Z;
  dl_shuffle : bool
}.

(** [DataLoader(dataset, batch_size, shuffle=...)].  The batch sampler
    behind it refuses a batch size that is not positive. *)
Definition DataLoader (ds : list image) (bs : Z) (shuf : bool) : M world dataloader :=
  if (bs <=? 0)%Z then
    throw (ValueError "batch_size should be a positive integer value")
  else mret (Loader ds bs shuf).

(** The batches of one pass over a loader.  A shuffling loader draws a
    fresh permutation from the global generator at every pass. *)
Definition batches (dl : dataloader) : M world (list batch) :=
  fun w =>
    if dl_shuffle dl then
      let '(perm, r) := shuffle (rng w) (dl_dataset dl) in
      (Ok (chunks (Z.to_nat (dl_batch_size dl)) [] perm), World (fs w) r (log w))
    else (Ok (chunks (Z.to_nat (dl_batch_size dl)) [] (dl_dataset dl)), w).

(** *** The model *)

(** What one forward pass computes.  The script receives the first
    three; the index grid stays inside the quantiser. *)
Record forward_result : Type := Forward {
  f_encoder_output : grid;
  f_quantized : grid;
  f_reconstruction : list image;
  f_indices : list nat
}.

(** Modelled from the spec: the forward pass of [Model] in
    [models/vqvae.py]: encoder, then quantiser, then decoder on the
    straight-through output. *)
Definition Model_forward (p : params) (training : bool) (images : batch)
    : res forward_result :=
  let encoder_output := encoder p training images in
  res_bind (quantize (codebook_of p) encoder_output) (fun qs =>
  Ok (Forward encoder_output (map q_selected qs)
        (decoder p training (map q_output qs)) (map q_index qs))).

(** *** The metric logger *)

(** Modelled from the spec: [MeterLogger] of [utils] keeps, for each
    name it was created with, a running average weighted by the count
    given with each value. *)
Definition MeterLogger (names : list string) : gmap string meter :=
  list_to_map ((fun n => (n, Meter 0 0)) <$> names).

Definition meter_reset (m : gmap string meter) : gmap string meter :=
  (fun _ => Meter 0 0) <$> m.

Definition meter_update (name : string) (value : Q) (n : Z)
    (m : gmap string meter) : gmap string meter :=
  alter (fun x => Meter (m_sum x + value * inject_Z n) (m_count x + n)%Z) name m.

(** *** The local variables of [main] while the epochs run *)

Record locals : Type := Locals {
  l_world : world;
  model : params;
  model_training : bool;
  model_grad : option grads;
  optimizer : opt_state;
  train_metric_logger : gmap string meter;
  val_metric_logger : gmap string meter;
  images : option batch;
  reconstruction : option (list image)
}.

Definition set_world (w : world) (l : locals) : locals :=
  Locals w (model l) (model_training l) (model_grad l) (optimizer l)
    (train_metric_logger l) (val_metric_logger l) (images l) (reconstruction l).

Definition set_model (p : params) (l : locals) : locals :=
  Locals (l_world l) p (model_training l) (model_grad l) (optimizer l)
    (train_metric_logger l) (val_metric_logger l) (images l) (reconstruction l).

Definition set_model_training (b : bool) (l : locals) : locals :=
  Locals (l_world l) (model l) b (model_grad l) (optimizer l)
    (train_metric_logger l) (val_metric_logger l) (images l) (reconstruction l).

Definition set_model_grad (g : option grads) (l : locals) : locals :=
  Locals (l_world l) (model l) (model_training l) g (optimizer l)
    (train_metric_logger l) (val_metric_logger l) (images l) (reconstruction l).

Definition set_optimizer (o : opt_state) (l : locals) : locals :=
  Locals (l_world l) (model l) (model_training l) (model_grad l) o
    (train_metric_logger l) (val_metric_logger l) (images l) (reconstruction l).

Definition set_train_metric_logger (m : gmap string meter) (l : locals) : locals :=
  Locals (l_world l) (model l) (model_training l) (model_grad l) (optimizer l)
    m (val_metric_logger l) (images l) (reconstruction l).

Definition set_val_metric_logger (m : gmap string meter) (l : locals) : locals :=
  Locals (l_world l) (model l) (model_training l) (model_grad l) (optimizer l)
    (train_metric_logger l) m (images l) (reconstruction l).

Definition set_images (b : batch) (l : locals) : locals :=
  Locals (l_world l) (model l) (model_training l) (model_grad l) (optimizer l)
    (train_metric_logger l) (val_metric_logger l) (Some b) (reconstruction l).

Definition set_reconstruction (r : list image) (l : locals) : locals :=
  Locals (l_world l) (model l) (model_training l) (model_grad l) (optimizer l)
    (train_metric_logger l) (val_metric_logger l) (images l) (Some r).

(** Run a computation on the world inside the loop. *)
Definition in_world {A : Type} (m : M world A) : M locals A :=
  fun l => let '(r, w) := m (l_world l) in (r, set_world w l).

Definition emit (e : event) : M locals unit := in_world (log_event e).

(** Reading a local variable that may not have been assigned yet. *)
Definition read_local {A : Type} (name : string) (v : locals -> option A) : M locals A :=
  fun l =>
    match v l with
    | Some x => (Ok x, l)
    | None => (Err (UnboundLocalError name), l)
    end.

(** [model(images)] followed by [criterion(...)], lines 70-72 and 94-96. *)
Definition forward_and_criterion (a : args) (grad_enabled : bool) (imgs : batch)
    : M locals losses :=
  l ← get;
  emit (EvForward grad_enabled (model l) imgs);;
  f ← lift_res (Model_forward (model l) (model_training l) imgs);
  modify (set_reconstruction (f_reconstruction f));;
  lift_res (Criterion (beta a) imgs (f_encoder_output f) (f_quantized f)
              (f_reconstruction f)).

(** [optimizer.zero_grad()] *)
Definition zero_grad : M locals unit :=
  emit EvZeroGrad;; modify (set_model_grad None).

(** [total_loss.backward()]: the gradient of the total loss at the
    current parameters is added to what the parameters hold. *)
Definition backward (a : args) (imgs : batch) : M locals unit :=
  emit EvBackward;;
  modify (fun l =>
    let g := autograd (beta a) (model_training l) (model l) imgs in
    set_model_grad
      (Some (match model_grad l with
             | Some g0 => grads_add g0 g
             | None => g
             end)) l).

(** [optimizer.step()] *)
Definition optimizer_step : M locals unit :=
  emit EvOptimizerStep;;
  modify (fun l =>
    let '(o, p) := adam_step (optimizer l) (model l) (model_grad l) in
    set_optimizer o (set_model p l)).

Definition train_metric_update (name : string) (value : Q) (n : Z) : M locals unit :=
  emit (EvMeterUpdate "train" name value n);;
  modify (fun l => set_train_metric_logger
                     (meter_update name value n (train_metric_logger l)) l).

Definition val_metric_update (name : string) (value : Q) (n : Z) : M locals unit :=
  emit (EvMeterUpdate "val" name value n);;
  modify (fun l => set_val_metric_logger
                     (meter_update name value n (val_metric_logger l)) l).

(** The body of the training loop, lines 67-80. *)
Definition train_step (a : args) (train_dataloader : dataloader) (train_batch : batch)
    : M locals unit :=
  modify (set_images train_batch);;
  ls ← forward_and_criterion a true train_batch;
  zero_grad;;
  backward a train_batch;;
  optimizer_step;;
  train_metric_update "total_loss" (val (total_loss ls))
    (dl_batch_size train_dataloader);;
  train_metric_update "reconstruction_loss" (val (reconstruction_loss ls))
    (dl_batch_size train_dataloader);;
  train_metric_update "vq_loss" (val (vq_loss ls)) (dl_batch_size train_dataloader).

(** The body of the evaluation loop, lines 90-100. *)
Definition eval_step (a : args) (test_dataloader : dataloader) (test_batch : batch)
    : M locals unit :=
  modify (set_images test_batch);;
  ls ← forward_and_criterion a false test_batch;
  val_metric_update "total_loss" (val (total_loss ls))
    (dl_batch_size test_dataloader);;
  val_metric_update "reconstruction_loss" (val (reconstruction_loss ls))
    (dl_batch_size test_dataloader);;
  val_metric_update "vq_loss" (val (vq_loss ls)) (dl_batch_size test_dataloader).

(** [image_logger.write(images, reconstruction, epoch, tag)] *)
Definition image_logger_write (epoch : nat) (tag : string) : M locals unit :=
  imgs ← read_local "images" images;
  rec ← read_local "reconstruction" reconstruction;
  emit (EvImageWrite imgs rec epoch tag).

(** Lines 64-85: the training phase of one epoch and its logging. *)
Definition train_phase (a : args) (train_dataloader : dataloader) (epoch : nat)
    : M locals unit :=
  emit (EvMeterReset "train");;
  modify (fun l => set_train_metric_logger (meter_reset (train_metric_logger l)) l);;
  emit EvModelTrain;;
  modify (set_model_training true);;
  bs ← in_world (batches train_dataloader);
  for_each bs (train_step a train_dataloader);;
  l ← get;
  emit (EvMeterWrite "train" epoch (train_metric_logger l));;
  image_logger_write epoch "train";;
  emit (EvVQWrite (codebook_of (model l)) epoch).

(** Lines 87-104: the evaluation phase of one epoch and its logging. *)
Definition eval_phase (a : args) (test_dataloader : dataloader) (epoch : nat)
    : M locals unit :=
  emit (EvMeterReset "val");;
  modify (fun l => set_val_metric_logger (meter_reset (val_metric_logger l)) l);;
  emit EvModelEval;;
  modify (set_model_training false);;
  bs ← in_world (batches test_dataloader);
  for_each bs (eval_step a test_dataloader);;
  l ← get;
  emit (EvMeterWrite "val" epoch (val_metric_logger l));;
  image_logger_write epoch "val".

(** Reading a module-level name that may not be bound. *)
Definition read_global {A : Type} (name : string) (v : option A) : M locals A :=
  match v with
  | Some x => mret x
  | None => throw (NameError name)
  end.

(** Lines 107-108: the checkpoint of one epoch. *)
Definition save_checkpoint (g : globals) (epoch : nat) : M locals unit :=
  dir ← read_global "experiment_model_path" (g_experiment_model_path g);
  let checkpoint_path := path_div dir (pretty epoch +:+ ".pth") in
  l ← get;
  in_world (write_file checkpoint_path (StateDict (model l)));;
  emit (EvSave (model l) checkpoint_path).

(** The body of the epoch loop, lines 64-108. *)
Definition epoch_body (g : globals) (a : args)
    (train_dataloader test_dataloader : dataloader) (epoch : nat) : M locals unit :=
  train_phase a train_dataloader epoch;;
  eval_phase a test_dataloader epoch;;
  save_checkpoint g epoch.

(** [range(args.num_epoch)] *)
Definition epochs (a : args) : list nat := seq 0 (Z.to_nat (num_epoch a)).

(** Reading an attribute of [args] that the caller may not have set. *)
Definition read_attr {S A : Type} (name : string) (v : option A) : M S A :=
  match v with
  | Some x => mret x
  | None => throw (AttributeError name)
  end.

(** Lines 33-42: the datasets for the name given, and the channel count
    stored in [args]. *)
Definition select_dataset (a : args) : M world (list image * list image * args) :=
  if String.eqb (dataset a) "cifar10" then
    log_event (EvDataset "CIFAR10" true);;
    log_event (EvDataset "CIFAR10" false);;
    mret (load_dataset "cifar10" true, load_dataset "cifar10" false,
          set_in_channels a 3)
  else if String.eqb (dataset a) "mnist" then
    log_event (EvDataset "MNIST" true);;
    log_event (EvDataset "MNIST" false);;
    mret (load_dataset "mnist" true, load_dataset "mnist" false,
          set_in_channels a 1)
  else throw (ValueError ("Invalid dataset: " +:+ dataset a)).

(** Line 49: the model, initialised from the global generator. *)
Definition Model (in_ch hidden k d : Z) : M world params :=
  fun w =>
    let '(p, r) := model_init (rng w) in_ch hidden k d in
    (Ok p, World (fs w) r (log w)).

(** Lines 50-58: the criterion, the optimiser and the loggers around a
    fresh model [p]; a fresh module is in training mode and holds no
    gradient, and [images] and [reconstruction] are not assigned yet. *)
Definition initial_locals (a : args) (p : params) (w : world) : locals :=
  let names := ["total_loss"; "reconstruction_loss"; "vq_loss"] in
  Locals w p true None (adam_init (lr a))
    (MeterLogger names) (MeterLogger names) None None.

(** Lines 23-60 of [main]: everything before the epoch loop.  It yields
    the two loaders and the local variables with which the loop starts. *)
Definition main_setup (a : args) : M world (args * dataloader * dataloader * locals) :=
  logdir ← read_attr "experiment_log_path" (experiment_log_path a);
  log_event (EvWriter logdir);;
  log_event (EvHparams a);;
  '(train_dataset, test_dataset, a) ← select_dataset a;
  train_dataloader ← DataLoader train_dataset (batch_size a) true;
  test_dataloader ← DataLoader test_dataset (batch_size a / 4)%Z false;
  in_ch ← read_attr "in_channels" (in_channels a);
  p ← Model in_ch (hidden_channels a) (num_embeddings a) (embedding_dim a);
  log_event (EvPrintModel p);;
  w ← get;
  mret (a, train_dataloader, test_dataloader, initial_locals a p w).

(** [main(args)], run with the module-level names [g] in scope.  The
    world reached is returned also when an exception escapes. *)
Definition main (g : globals) (a : args) : M world unit :=
  fun w =>
    match main_setup a w with
    | (Ok (a', train_dataloader, test_dataloader, l0), _) =>
        let '(r, l) :=
          for_each (epochs a') (epoch_body g a' train_dataloader test_dataloader) l0 in
        (r, l_world l)
    | (Err e, w') => (Err e, w')
    end.

(** Lines 131-154: the [__main__] block on the parsed arguments.  The
    experiment name is taken as a single path component. *)
Definition script (a : args) : M world unit :=
  set_random_seed (seed a);;
  match experiment_name a with
  | None => throw (TypeError "unsupported operand type(s) for /")
  | Some name =>
      let experiment_root := path_div ["experiments"] name in
      let a := set_experiment_root a (path_str experiment_root) in
      ex ← path_exists experiment_root;
      when_ (negb ex) (mkdir experiment_root);;
      write_file (path_div experiment_root "config.json") (ConfigJson a);;
      let experiment_log_path := path_div experiment_root "logs" in
      let a := set_experiment_log_path a (path_str experiment_log_path) in
      ex ← path_exists experiment_log_path;
      when_ (negb ex) (mkdir experiment_log_path);;
      let experiment_model_path := path_div experiment_root "models" in
      let a := set_experiment_model_path a (path_str experiment_model_path) in
      ex ← path_exists experiment_model_path;
      when_ (negb ex) (mkdir experiment_model_path);;
      log_event (EvPrintArgs a);;
      main (Globals (Some experiment_root) (Some experiment_log_path)
              (Some experiment_model_path)) a
  end.

(** *** Vocabulary for the properties *)

(** What an event may be while the parameters [p] are only read: a
    forward pass on [p] with gradients disabled, or anything that is
    neither a gradient computation, nor an optimiser step, nor a save. *)
Definition eval_event (p : params) (e : event) : Prop :=
  match e with
  | EvForward grad_enabled p' _ => grad_enabled = false /\ p' = p
  | EvZeroGrad | EvBackward | EvOptimizerStep | EvSave _ _ => False
  | _ => True
  end.

(** [l'] differs from [l] in no parameter, no gradient, no optimiser
    state and no file, and the events in between only read. *)
Definition frozen (l l' : locals) : Prop :=
  model l' = model l /\
  model_grad l' = model_grad l /\
  optimizer l' = optimizer l /\
  fs (l_world l') = fs (l_world l) /\
  exists evs,
    log (l_world l') = log (l_world l) ++ evs /\
    Forall (eval_event (model l)) evs.

(** An event other than a save. *)
Definition no_save (e : event) : Prop :=
  match e with
  | EvSave _ _ => False
  | _ => True
  end.

(** [l'] differs from [l] in no file, and nothing was saved in between. *)
Definition quiet (l l' : locals) : Prop :=
  fs (l_world l') = fs (l_world l) /\
  exists evs,
    log (l_world l') = log (l_world l) ++ evs /\ Forall no_save evs.



(** The events of a training step after the forward pass. *)
Definition train_step_events (ls : losses) (n : Z) : list event :=
  [ EvZeroGrad; EvBackward; EvOptimizerStep;
    EvMeterUpdate "train" "total_loss" (val (total_loss ls)) n;
    EvMeterUpdate "train" "reconstruction_loss" (val (reconstruction_loss ls)) n;
    EvMeterUpdate "train" "vq_loss" (val (vq_loss ls)) n ].

(** The events of an evaluation step after the forward pass. *)
Definition eval_step_events (ls : losses) (n : Z) : list event :=
  [ EvMeterUpdate "val" "total_loss" (val (total_loss ls)) n;
    EvMeterUpdate "val" "reconstruction_loss" (val (reconstruction_loss ls)) n;
    EvMeterUpdate "val" "vq_loss" (val (vq_loss ls)) n ].

(** The meters after the three updates of one batch. *)
Definition meters_after (ls : losses) (n : Z) (m : gmap string meter) : gmap string meter :=
  meter_update "vq_loss" (val (vq_loss ls)) n
    (meter_update "reconstruction_loss" (val (reconstruction_loss ls)) n
       (meter_update "total_loss" (val (total_loss ls)) n m)).


(** The names and the weights given to the metric loggers, in order. *)
Definition updated_names (evs : list event) : list string :=
  omap (fun e => match e with EvMeterUpdate _ name _ _ => Some name | _ => None end) evs.

Definition update_weights (evs : list event) : list Z :=
  omap (fun e => match e with EvMeterUpdate _ _ _ n => Some n | _ => None end) evs.

(** The number of images of every forward pass, in order. *)
Definition forward_sizes (evs : list event) : list nat :=
  omap (fun e => match e with EvForward _ _ imgs => Some (length imgs) | _ => None end) evs.


(** The file of the checkpoint of an epoch under the directory [dir]. *)
Definition checkpoint_file (dir : path) (epoch : nat) : path :=
  path_div dir (pretty epoch +:+ ".pth").

(** The checkpoints saved, in order: the parameters and the file. *)
Definition saves (evs : list event) : list (params * list string) :=
  omap (fun e => match e with EvSave p file => Some (p, file) | _ => None end) evs.

(** [l'] is in the mode, training or evaluation, in which [l] is. *)
Definition same_mode (l l' : locals) : Prop := model_training l' = model_training l.

(** The three names under which [main] gives values to a metric logger. *)
Definition meter_names : list string :=
  ["total_loss"; "reconstruction_loss"; "vq_loss"].

End WithBackend.

End Train.

(** ** A small back end and sample runs *)

Module Toy.

Import VQ Train.

Definition v2 (x y : Z) : vec := [dconst (inject_Z x); dconst (inject_Z y)].

(** The codebook of the end-to-end scenario: K = 4, D = 2. *)
Definition rows : codebook := [v2 0 0; v2 10 0; v2 0 10; v2 10 10].

(** A back end whose only parameter is the codebook, whose encoder and
    decoder are the identity on two-pixel images, and whose optimiser
    step moves every codebook entry by one. *)
#[export] Instance backend : Backend := {|
  params := codebook;
  grads := unit;
  opt_state := nat;
  rng_state := Z;
  seed_rng s := s;
  load_dataset _ is_train :=
    if is_train then [v2 1 1; v2 9 9; v2 9 1; v2 1 9; v2 5 5]
    else [v2 1 1; v2 9 9; v2 2 8];
  shuffle r l := (rev l, (r + 1)%Z);
  model_init r _ _ _ _ := (rows, (r + 1)%Z);
  encoder _ _ imgs := imgs;
  decoder _ _ g := g;
  codebook_of p := p;
  autograd _ _ _ _ := tt;
  grads_add _ _ := tt;
  adam_init _ := 0%nat;
  adam_step o p _ := (S o, map (map (dadd (dconst 1))) p)
|}.

(** The default command line with an experiment name, a batch size of
    four and [n] epochs. *)
Definition cli (name : string) (epochs : Z) : args :=
  Args name (Some "run") false 987 4 epochs (3 # 10000) 256 512 64 1
    None None None None.

(** A working directory that holds an empty [experiments] directory. *)
Definition fresh : world := World {[ ["experiments"] := Dir ]} 0%Z [].


(** [main] called on its own: the attributes that [main] reads are set,
    no module-level name is. *)
Definition library_args (name : string) (epochs : Z) : args :=
  set_experiment_model_path
    (set_experiment_log_path (cli name epochs) "experiments/run/logs")
    "experiments/run/models".

(** The loaders that [main] builds for a batch size of four, the local
    variables with which its loop starts, and the last, short batch of
    the training data. *)
Definition train_loader : dataloader := Loader (load_dataset "cifar10" true) 4 true.
Definition test_loader : dataloader := Loader (load_dataset "cifar10" false) 1 false.
Definition start : locals := initial_locals (cli "cifar10" 1) rows fresh.
Definition full_batch : batch := [v2 5 5; v2 1 9; v2 9 1; v2 9 9].
Definition short_batch : batch := [v2 1 1].

(** [main] called on its own for one epoch: its arguments before and
    after the dataset has been chosen, and the states it goes through up
    to the end of the evaluation phase of epoch 0. *)
Definition lib_args : args := library_args "cifar10" 1.
Definition lib_args' : args := set_in_channels lib_args 3.
Definition setup_world : world := (main_setup lib_args fresh).2.
Definition setup_locals : locals := initial_locals lib_args' rows setup_world.
Definition after_train : locals := (train_phase lib_args' train_loader 0 setup_locals).2.
Definition after_eval : locals := (eval_phase lib_args' test_loader 0 after_train).2.

(** A latent grid whose derivatives are not zero. *)
Definition sloped : grid := [[Dual 1 7; Dual 1 (-2)]; [Dual 9 3; Dual 9 (1 # 2)]].

(** More inputs: a state that still holds a gradient; a batch of
    one-pixel images, which the two-dimensional codebook cannot
    quantise; the state after one good batch, and the state in which
    the bad batch fails after it. *)
Definition stale : locals := set_model_grad (Some tt) start.
Definition bad_batch : batch := [[dconst 1]].
Definition after_one : locals :=
  (for_each [short_batch] (train_step (cli "cifar10" 1) train_loader) start).2.
Definition failed_forward : locals :=
  (forward_and_criterion (cli "cifar10" 1) true bad_batch
     (set_images bad_batch after_one)).2.

(** [main] called on its own with a batch size of three, and with no
    epoch to run. *)
Definition small_batch_args : args :=
  Args "mnist" (Some "run") false 987 3 1 (3 # 10000) 256 512 64 1
    None (Some "experiments/run/logs") None None.
Definition zero_args : args := library_args "cifar10" 0.
Definition zero_world : world := (main_setup zero_args fresh).2.

(** A working directory in which the experiment [run] has been set up
    before, an empty working directory, and a command line without an
    experiment name. *)
Definition prepared : world := World (fs (script (cli "imagenet" 1) fresh).2) 5%Z [].
Definition nameless : args :=
  Args "cifar10" None false 987 4 1 (3 # 10000) 256 512 64 1 None None None None.

(** A loader whose second batch cannot be quantised. *)
Definition bad_loader : dataloader := Loader [v2 1 1; [dconst 1]] 1 false.

(** [main] run for two epochs with checkpoints under [experiments]. *)
Definition two_epochs : args := library_args "cifar10" 2.
Definition checkpoints_here : globals := Globals None None (Some ["experiments"]).
Definition after_two_epochs : world := (main checkpoints_here two_epochs fresh).2.

End Toy.

(** * Properties *)

Import VQ.

(** ** The quantiser *)

Section Argmin.

Local Open Scope nat_scope.

(** The scan keeps the lowest index among the smallest distances. *)
Lemma argmin_from_spec (ds pre : list Q) (best : nat) (bd : Q) :
  (pre ++ ds) !! best = Some bd ->
  best < length pre ->
  (forall j d, j < length pre -> (pre ++ ds) !! j = Some d -> (bd <= d)%Q) ->
  (forall j d, j < best -> (pre ++ ds) !! j = Some d -> (bd < d)%Q) ->
  exists rd,
    (pre ++ ds) !! argmin_from (length pre) best bd ds = Some rd /\
    (forall j d, (pre ++ ds) !! j = Some d -> (rd <= d)%Q) /\
    (forall j d, j < argmin_from (length pre) best bd ds ->
                 (pre ++ ds) !! j = Some d -> (rd < d)%Q).
Proof.
  revert pre best bd.
  induction ds as [|d ds IH]; intros pre best bd Hb Hlt Hle Hst; simpl.
  - exists bd. rewrite app_nil_r in *. repeat split; auto.
    intros j x Hj. apply (Hle j x); auto. apply lookup_lt_Some in Hj. exact Hj.
  - assert (Heq : pre ++ d :: ds = (pre ++ [d]) ++ ds) by (rewrite <- app_assoc; reflexivity).
    assert (Hlen : length (pre ++ [d]) = S (length pre)) by (rewrite length_app; simpl; lia).
    assert (Hd : (pre ++ d :: ds) !! length pre = Some d).
    { rewrite lookup_app_r by lia. rewrite Nat.sub_diag. reflexivity. }
    destruct (Qlt_le_dec d bd) as [Hnew|Hold].
    + rewrite Heq, <- Hlen. apply IH.
      * rewrite <- Heq. exact Hd.
      * lia.
      * intros j x Hj Hx. rewrite <- Heq in Hx. rewrite Hlen in Hj.
        destruct (decide (j = length pre)) as [->|Hne].
        -- rewrite Hd in Hx. injection Hx as <-. apply Qle_refl.
        -- apply Qle_trans with bd; [apply Qlt_le_weak; exact Hnew|].
           apply (Hle j x); [lia|exact Hx].
      * intros j x Hj Hx. rewrite <- Heq in Hx.
        apply Qlt_le_trans with bd; [exact Hnew|].
        apply (Hle j x); [lia|exact Hx].
    + rewrite Heq, <- Hlen. apply IH.
      * rewrite <- Heq. exact Hb.
      * lia.
      * intros j x Hj Hx. rewrite <- Heq in Hx. rewrite Hlen in Hj.
        destruct (decide (j = length pre)) as [->|Hne].
        -- rewrite Hd in Hx. injection Hx as <-. exact Hold.
        -- apply (Hle j x); [lia|exact Hx].
      * intros j x Hj Hx. rewrite <- Heq in Hx. apply (Hst j x); auto.
Qed.

Lemma argmin_spec (ds : list Q) :
  ds <> [] ->
  exists i rd,
    argmin ds = Some i /\ ds !! i = Some rd /\
    (forall j d, ds !! j = Some d -> (rd <= d)%Q) /\
    (forall j d, j < i -> ds !! j = Some d -> (rd < d)%Q).
Proof.
  destruct ds as [|d ds]; [congruence|]. intros _. simpl.
  destruct (argmin_from_spec ds [d] 0 d) as (rd & H1 & H2 & H3).
  - reflexivity.
  - simpl. lia.
  - intros j x Hj Hx. simpl in Hj. assert (j = 0) as -> by lia.
    simpl in Hx. injection Hx as <-. apply Qle_refl.
  - intros j x Hj. lia.
  - exists (argmin_from 1 0 d ds), rd. auto.
Qed.

End Argmin.

Lemma res_mapM_Forall2 {A B : Type} (f : A -> res B) (l : list A) (ys : list B) :
  res_mapM f l = Ok ys -> Forall2 (fun x y => f x = Ok y) l ys.
Proof.
  revert ys. induction l as [|x l IH]; intros ys H; simpl in H.
  - injection H as <-. constructor.
  - destruct (f x) as [y|e] eqn:Hx; simpl in H; [|discriminate].
    destruct (res_mapM f l) as [ys'|e] eqn:Hl; simpl in H; [|discriminate].
    injection H as <-. constructor; auto.
Qed.

Lemma res_mapM_total {A B : Type} (f : A -> res B) (l : list A) :
  Forall (fun x => exists y, f x = Ok y) l -> exists ys, res_mapM f l = Ok ys.
Proof.
  induction 1 as [|x l [y Hy] _ [ys Hys]]; simpl.
  - eexists; reflexivity.
  - rewrite Hy, Hys. simpl. eexists; reflexivity.
Qed.

Lemma shape_check_true (cb : codebook) (z : vec) :
  Forall (fun row => length row = length z) cb ->
  forallb (fun row => Nat.eqb (length row) (length z)) cb = true.
Proof.
  induction 1 as [|row cb Hrow _ IH]; simpl; [reflexivity|].
  rewrite IH, andb_true_r. apply Nat.eqb_eq. exact Hrow.
Qed.

Lemma shape_check_lookup (cb : codebook) (z : vec) (i : nat) (row : vec) :
  forallb (fun row => Nat.eqb (length row) (length z)) cb = true ->
  cb !! i = Some row -> length row = length z.
Proof.
  intros H Hi. rewrite forallb_forall in H.
  apply Nat.eqb_eq, H, list_elem_of_In. eapply list_elem_of_lookup_2; eauto.
Qed.

(** One position: the quantiser answers, and its answer is the first of
    the nearest rows. *)
Lemma quantize_vec_spec (cb : codebook) (z : vec) :
  well_shaped cb z ->
  exists q,
    quantize_vec cb z = Ok q /\
    cb !! q_index q = Some (q_selected q) /\
    (forall j row, cb !! j = Some row ->
       sq_dist z (q_selected q) <= sq_dist z row) /\
    (forall j row, (j < q_index q)%nat -> cb !! j = Some row ->
       sq_dist z (q_selected q) < sq_dist z row) /\
    q_output q = straight_through z (q_selected q).
Proof.
  intros [Hne Hsh]. unfold quantize_vec.
  rewrite (shape_check_true _ _ Hsh).
  destruct (argmin_spec (map (sq_dist z) cb)) as (i & rd & Hi & Hrd & Hle & Hlt).
  { destruct cb; [congruence|discriminate]. }
  rewrite Hi. rewrite list_lookup_fmap in Hrd.
  destruct (cb !! i) as [row|] eqn:Hrow; simpl in Hrd; [|discriminate].
  injection Hrd as <-.
  eexists. split; [reflexivity|]. simpl. repeat split; auto.
  - intros j r Hj. apply (Hle j). rewrite list_lookup_fmap, Hj. reflexivity.
  - intros j r Hji Hj. apply (Hlt j); [exact Hji|].
    rewrite list_lookup_fmap, Hj. reflexivity.
Qed.

Lemma quantize_vec_inv (cb : codebook) (z : vec) (q : quantized) :
  quantize_vec cb z = Ok q ->
  cb !! q_index q = Some (q_selected q) /\
  length (q_selected q) = length z /\
  q_output q = straight_through z (q_selected q).
Proof.
  unfold quantize_vec.
  destruct (forallb _ cb) eqn:Hsh; [|discriminate].
  destruct (argmin _) as [i|]; [|discriminate].
  destruct (cb !! i) as [row|] eqn:Hrow; [|discriminate].
  intros H. injection H as <-. simpl. repeat split; auto.
  eapply shape_check_lookup; eauto.
Qed.

Lemma quantize_total (cb : codebook) (zs : grid) :
  Forall (well_shaped cb) zs -> exists qs, quantize cb zs = Ok qs.
Proof.
  intros H. apply res_mapM_total.
  eapply Forall_impl; [exact H|]. simpl. intros z Hz.
  destruct (quantize_vec_spec cb z Hz) as (q & Hq & _). eauto.
Qed.

(** ** The straight-through estimator *)

Lemma straight_through_val (z q : vec) :
  length q = length z ->
  Forall2 (fun o r => val o == val r) (straight_through z q) q.
Proof.
  revert q. induction z as [|a z IH]; intros [|b q] Hlen; simpl in *;
    try discriminate; constructor.
  - simpl. ring.
  - apply IH. lia.
Qed.

Lemma straight_through_tan (z q : vec) :
  length q = length z ->
  Forall2 (fun o a => tan o == tan a) (straight_through z q) z.
Proof.
  revert q. induction z as [|a z IH]; intros [|b q] Hlen; simpl in *;
    try discriminate; constructor.
  - simpl. ring.
  - apply IH. lia.
Qed.

(** ** The criterion *)

Lemma shape_length_flatten (x y : list vec) :
  shape x = shape y -> length (flatten x) = length (flatten y).
Proof.
  unfold shape, flatten. intros H. rewrite !List.length_concat.
  change (List.map (@length dual) x) with (map length x).
  change (List.map (@length dual) y) with (map length y).
  rewrite H. reflexivity.
Qed.

Lemma shape_detach (x : list vec) : shape (detach x) = shape x.
Proof.
  unfold shape, detach. induction x as [|v x IH]; simpl; [reflexivity|].
  rewrite length_map, IH. reflexivity.
Qed.

Lemma mse_total (x y : list dual) :
  length x = length y -> x <> [] -> exists d, mse x y = Ok d.
Proof.
  intros Hlen Hne. unfold mse.
  rewrite Hlen, Nat.eqb_refl. simpl.
  destruct x as [|a x]; [congruence|]. rewrite <- Hlen. simpl. eexists; reflexivity.
Qed.

Lemma mse_grid_total (x y : list vec) :
  shape x = shape y -> flatten x <> [] -> exists d, mse_grid x y = Ok d.
Proof.
  intros Hsh Hne. unfold mse_grid.
  rewrite bool_decide_eq_true_2 by exact Hsh.
  apply mse_total; [apply shape_length_flatten; exact Hsh|exact Hne].
Qed.

(** C1.  For every latent grid whose vectors have the dimension of the
    rows of a non-empty codebook, the quantiser answers, and at every
    position, on its own, the index it selects is an argmin of the
    squared Euclidean distance to the rows; every row of lower index is
    strictly farther, so the lowest index wins a tie; the vector
    gathered is the codebook row at that index, and it is the value
    handed on. *)
Theorem quantize_selects_nearest_row (cb : codebook) (zs : grid) :
  Forall (well_shaped cb) zs ->
  exists qs,
    quantize cb zs = Ok qs /\
    Forall2 (fun z q =>
      quantize_vec cb z = Ok q /\
      cb !! q_index q = Some (q_selected q) /\
      (forall j row, cb !! j = Some row ->
         sq_dist z (q_selected q) <= sq_dist z row) /\
      (forall j row, (j < q_index q)%nat -> cb !! j = Some row ->
         sq_dist z (q_selected q) < sq_dist z row) /\
      Forall2 (fun o r => val o == val r) (q_output q) (q_selected q)) zs qs.
Proof.
  intros Hws. destruct (quantize_total cb zs Hws) as [qs Hqs].
  exists qs. split; [exact Hqs|].
  apply res_mapM_Forall2 in Hqs.
  induction Hqs as [|z q zs qs Hq _ IH]; constructor.
  - apply Forall_cons in Hws as [Hz _].
    destruct (quantize_vec_spec cb z Hz) as (q' & Hq' & Hi & Hle & Hlt & Hout).
    rewrite Hq in Hq'. injection Hq' as <-.
    repeat split; auto.
    rewrite Hout. apply straight_through_val.
    apply quantize_vec_inv in Hq. tauto.
  - apply IH. apply Forall_cons in Hws. tauto.
Qed.

(** C2.  For every latent grid that the quantiser accepts, the output
    fed to the decoder is [latent + stop_gradient(selected - latent)];
    its value equals the value of the selected codebook row in every
    coordinate, and its derivative along any direction equals the
    derivative of the latent vector in that coordinate, whatever the
    derivative of the codebook: the Jacobian with respect to the latent
    vector is the identity. *)
Theorem straight_through_value_and_gradient (cb : codebook) (zs : grid) :
  Forall (well_shaped cb) zs ->
  exists qs,
    quantize cb zs = Ok qs /\
    Forall2 (fun z q =>
      q_output q = straight_through z (q_selected q) /\
      Forall2 (fun o r => val o == val r) (q_output q) (q_selected q) /\
      Forall2 (fun o a => tan o == tan a) (q_output q) z) zs qs.
Proof.
  intros Hws. destruct (quantize_total cb zs Hws) as [qs Hqs].
  exists qs. split; [exact Hqs|].
  apply res_mapM_Forall2 in Hqs.
  eapply Forall2_impl; [exact Hqs|]. simpl.
  intros z q Hq. apply quantize_vec_inv in Hq as (_ & Hlen & Hout).
  rewrite Hout. split; [reflexivity|].
  split; [apply straight_through_val|apply straight_through_tan]; exact Hlen.
Qed.

(** C3.  For every coefficient beta and all inputs of matching, non-empty
    shapes the criterion returns four scalars; the first is
    reconstruction + vq + beta * commitment, as a value and as a
    derivative, and the other three are the mean squared errors that
    define those terms. *)
Theorem criterion_total_is_sum (beta : Q) (imgs recon : list vec) (latent quant : grid) :
  shape recon = shape imgs -> flatten recon <> [] ->
  shape quant = shape latent -> flatten latent <> [] ->
  exists ls,
    Criterion beta imgs latent quant recon = Ok ls /\
    val (total_loss ls) =
      val (reconstruction_loss ls) + val (vq_loss ls) + beta * val (commitment_loss ls) /\
    tan (total_loss ls) =
      tan (reconstruction_loss ls) + tan (vq_loss ls) + beta * tan (commitment_loss ls) /\
    mse_grid recon imgs = Ok (reconstruction_loss ls) /\
    mse_grid quant (detach latent) = Ok (vq_loss ls) /\
    mse_grid latent (detach quant) = Ok (commitment_loss ls).
Proof.
  intros Hr Hrne Hq Hzne.
  assert (Hqne : flatten quant <> []).
  { intros E. apply Hzne. apply length_zero_iff_nil.
    rewrite <- (shape_length_flatten _ _ Hq), E. reflexivity. }
  destruct (mse_grid_total recon imgs Hr Hrne) as [rl Hrl].
  destruct (mse_grid_total quant (detach latent)) as [vl Hvl];
    [rewrite shape_detach; exact Hq|exact Hqne|].
  destruct (mse_grid_total latent (detach quant)) as [cl Hcl];
    [rewrite shape_detach; symmetry; exact Hq|exact Hzne|].
  exists (Losses (dadd (dadd rl vl) (dscale beta cl)) rl vl cl).
  unfold Criterion. rewrite Hrl, Hvl, Hcl. simpl. repeat split; auto.
Qed.

(** ** The training script *)

Import Train.

(** *** Reasoning about monadic code *)

Section Relations.

Context {S : Type} (R : S -> S -> Prop).
Context (R_refl : forall s, R s s).
Context (R_trans : forall s1 s2 s3, R s1 s2 -> R s2 s3 -> R s1 s3).

Lemma bind_rel {A B : Type} (m : M S A) (k : A -> M S B) (s : S) :
  R s (m s).2 ->
  (forall a s', m s = (Ok a, s') -> R s' (k a s').2) ->
  R s ((m ≫= k) s).2.
Proof.
  intros Hm Hk. unfold mbind, M_bind, bind.
  destruct (m s) as [[a|e] s'] eqn:E; simpl in *.
  - eapply R_trans; [exact Hm|]. apply Hk. reflexivity.
  - exact Hm.
Qed.


Lemma for_each_rel {A : Type} (l : list A) (body : A -> M S unit) (s : S) :
  (forall x s', R s' (body x s').2) -> R s (for_each l body s).2.
Proof.
  intros Hbody. revert s. induction l as [|x l IH]; intros s; simpl.
  - apply R_refl.
  - apply bind_rel; [apply Hbody|]. intros _ s' _. apply IH.
Qed.

End Relations.

Lemma get_inv {S : Type} (s a s' : S) : get s = (Ok a, s') -> a = s /\ s' = s.
Proof. unfold get. intros H. injection H as <- <-. auto. Qed.

Section TrainingProperties.

Context {B : Backend}.

(** *** The evaluation phase leaves the parameters alone *)

Lemma frozen_refl (l : locals) : frozen l l.
Proof.
  unfold frozen. repeat split; auto. exists []. rewrite app_nil_r. auto.
Qed.

Lemma frozen_trans (l1 l2 l3 : locals) : frozen l1 l2 -> frozen l2 l3 -> frozen l1 l3.
Proof.
  intros (Hm & Hg & Ho & Hf & e1 & He1 & Hf1) (Hm' & Hg' & Ho' & Hf' & e2 & He2 & Hf2).
  unfold frozen. repeat split; try congruence.
  exists (e1 ++ e2). split.
  - rewrite He2, He1, app_assoc. reflexivity.
  - apply Forall_app. split; [exact Hf1|]. rewrite <- Hm. exact Hf2.
Qed.

Lemma emit_frozen (e : event) (l : locals) :
  eval_event (model l) e -> frozen l (emit e l).2.
Proof.
  intros He. unfold frozen. simpl. repeat split; auto.
  exists [e]. split; [reflexivity|]. constructor; [exact He|constructor].
Qed.

Lemma batches_frozen (dl : dataloader) (l : locals) :
  frozen l (in_world (batches dl) l).2.
Proof.
  unfold in_world, batches.
  destruct (dl_shuffle dl); [destruct (shuffle _ _)|]; simpl;
    unfold frozen; simpl; repeat split; auto; exists []; rewrite app_nil_r; auto.
Qed.

Ltac frozen_step :=
  first
    [ apply (bind_rel frozen frozen_trans)
    | apply (for_each_rel frozen frozen_refl frozen_trans)
    | apply frozen_refl
    | apply batches_frozen
    | apply emit_frozen; simpl; auto
    | match goal with
      | |- frozen ?l (modify _ ?l).2 =>
          unfold frozen; simpl; repeat split; auto; exists []; rewrite app_nil_r; auto
      end ].

Lemma read_local_frozen {A : Type} (name : string) (v : locals -> option A) (l : locals) :
  frozen l (read_local name v l).2.
Proof. unfold read_local. destruct (v l); apply frozen_refl. Qed.

Lemma val_metric_update_frozen (name : string) (v : Q) (n : Z) (l : locals) :
  frozen l (val_metric_update name v n l).2.
Proof.
  unfold val_metric_update. frozen_step; [frozen_step|]. intros. frozen_step.
Qed.

Lemma forward_and_criterion_frozen (a : args) (imgs : batch) (l : locals) :
  frozen l (forward_and_criterion a false imgs l).2.
Proof.
  unfold forward_and_criterion.
  frozen_step; [frozen_step|]. intros l0 l1 [-> ->]%get_inv.
  frozen_step; [frozen_step|]. intros _ l2 _.
  frozen_step; [frozen_step|]. intros f l3 _.
  frozen_step; [frozen_step|]. intros _ l4 _. frozen_step.
Qed.

Lemma eval_step_frozen (a : args) (dl : dataloader) (b : batch) (l : locals) :
  frozen l (eval_step a dl b l).2.
Proof.
  unfold eval_step.
  frozen_step; [frozen_step|]. intros _ l1 _.
  frozen_step; [apply forward_and_criterion_frozen|]. intros ls l2 _.
  frozen_step; [apply val_metric_update_frozen|]. intros _ l3 _.
  frozen_step; [apply val_metric_update_frozen|]. intros _ l4 _.
  apply val_metric_update_frozen.
Qed.

Lemma image_logger_write_frozen (epoch : nat) (tag : string) (l : locals) :
  frozen l (image_logger_write epoch tag l).2.
Proof.
  unfold image_logger_write.
  frozen_step; [apply read_local_frozen|]. intros imgs l1 _.
  frozen_step; [apply read_local_frozen|]. intros rec l2 _. frozen_step.
Qed.

(** *** One batch *)

Lemma train_step_ok (a : args) (dl : dataloader) (b : batch) (l l1 : locals) (ls : losses) :
  forward_and_criterion a true b (set_images b l) = (Ok ls, l1) ->
  exists l2,
    train_step a dl b l = (Ok tt, l2) /\
    log (l_world l2) = log (l_world l1) ++ train_step_events ls (dl_batch_size dl) /\
    train_metric_logger l2 = meters_after ls (dl_batch_size dl) (train_metric_logger l1) /\
    val_metric_logger l2 = val_metric_logger l1 /\
    model_grad l2 = Some (autograd (beta a) (model_training l1) (model l1) b) /\
    (optimizer l2, model l2) =
      adam_step (optimizer l1) (model l1)
        (Some (autograd (beta a) (model_training l1) (model l1) b)) /\
    fs (l_world l2) = fs (l_world l1).
Proof.
  intros H. unfold train_step.
  unfold mbind at 1, M_bind at 1, bind at 1. unfold modify at 1.
  unfold mbind at 1, M_bind at 1, bind at 1. rewrite H.
  unfold zero_grad, backward, optimizer_step, train_metric_update, emit, in_world,
    log_event, modify, mbind, M_bind, bind. simpl.
  destruct (adam_step (optimizer l1) (model l1) _) as [o p] eqn:E. simpl.
  eexists. split; [reflexivity|]. simpl.
  rewrite <- !app_assoc. simpl. repeat split; auto.
Qed.

Lemma eval_step_ok (a : args) (dl : dataloader) (b : batch) (l l1 : locals) (ls : losses) :
  forward_and_criterion a false b (set_images b l) = (Ok ls, l1) ->
  exists l2,
    eval_step a dl b l = (Ok tt, l2) /\
    log (l_world l2) = log (l_world l1) ++ eval_step_events ls (dl_batch_size dl) /\
    val_metric_logger l2 = meters_after ls (dl_batch_size dl) (val_metric_logger l1) /\
    train_metric_logger l2 = train_metric_logger l1.
Proof.
  intros H. unfold eval_step.
  unfold mbind at 1, M_bind at 1, bind at 1. unfold modify at 1.
  unfold mbind at 1, M_bind at 1, bind at 1. rewrite H.
  unfold val_metric_update, emit, in_world, log_event, modify, mbind, M_bind, bind.
  simpl. eexists. split; [reflexivity|]. simpl.
  rewrite <- !app_assoc. simpl. repeat split; auto.
Qed.

Lemma forward_and_criterion_inv (a : args) (ge : bool) (b : batch) (l l1 : locals)
    (r : res losses) :
  forward_and_criterion a ge b l = (r, l1) ->
  model l1 = model l /\
  model_training l1 = model_training l /\
  model_grad l1 = model_grad l /\
  optimizer l1 = optimizer l /\
  train_metric_logger l1 = train_metric_logger l /\
  val_metric_logger l1 = val_metric_logger l /\
  fs (l_world l1) = fs (l_world l) /\
  log (l_world l1) = log (l_world l) ++ [EvForward ge (model l) b].
Proof.
  unfold forward_and_criterion, emit, in_world, log_event, modify, lift_res, get,
    mbind, M_bind, bind. simpl.
  destruct (Model_forward (model l) (model_training l) b) as [f|e]; simpl;
    intros H; injection H as _ <-; simpl; repeat split; auto.
Qed.

(** C5, as the code has it.  In every training batch and in every
    evaluation batch whose forward pass and criterion succeed, the step
    completes and hands to the metric logger exactly three of the four
    scalars, in this order: the total loss, the reconstruction loss and
    the vq loss.  The commitment loss is returned by the criterion but
    never given to the logger, and the names the logger keeps do not
    change. *)
Theorem three_of_four_losses_are_aggregated
    (a : args) (train_dataloader test_dataloader : dataloader)
    (b b' : batch) (l l1 l' l1' : locals) (ls ls' : losses) :
  forward_and_criterion a true b (set_images b l) = (Ok ls, l1) ->
  forward_and_criterion a false b' (set_images b' l') = (Ok ls', l1') ->
  (exists l2,
     train_step a train_dataloader b l = (Ok tt, l2) /\
     log (l_world l2) =
       log (l_world l) ++ EvForward true (model l) b ::
         train_step_events ls (dl_batch_size train_dataloader) /\
     dom (train_metric_logger l2) = dom (train_metric_logger l)) /\
  (exists l2',
     eval_step a test_dataloader b' l' = (Ok tt, l2') /\
     log (l_world l2') =
       log (l_world l') ++ EvForward false (model l') b' ::
         eval_step_events ls' (dl_batch_size test_dataloader) /\
     dom (val_metric_logger l2') = dom (val_metric_logger l')) /\
  updated_names (train_step_events ls (dl_batch_size train_dataloader)) =
    ["total_loss"; "reconstruction_loss"; "vq_loss"] /\
  updated_names (eval_step_events ls' (dl_batch_size test_dataloader)) =
    ["total_loss"; "reconstruction_loss"; "vq_loss"].
Proof.
  intros H H'.
  destruct (train_step_ok a train_dataloader b l l1 ls H) as (l2 & E & Hlog & Hm & _).
  destruct (eval_step_ok a test_dataloader b' l' l1' ls' H') as (l2' & E' & Hlog' & Hm' & _).
  apply forward_and_criterion_inv in H as (_ & _ & _ & _ & Ht & _ & _ & Hl).
  apply forward_and_criterion_inv in H' as (_ & _ & _ & _ & _ & Hv & _ & Hl').
  simpl in *.
  repeat split; try reflexivity.
  - exists l2. split; [exact E|]. split.
    + rewrite Hlog, Hl, <- app_assoc. reflexivity.
    + rewrite Hm, Ht. unfold meters_after, meter_update. rewrite !dom_alter_L. reflexivity.
  - exists l2'. split; [exact E'|]. split.
    + rewrite Hlog', Hl', <- app_assoc. reflexivity.
    + rewrite Hm', Hv. unfold meters_after, meter_update. rewrite !dom_alter_L. reflexivity.
Qed.

(** *** What [main] sets up before the loop *)

Lemma main_setup_inv (a a' : args) (w w0 : world)
    (train_dataloader test_dataloader : dataloader) (l0 : locals) :
  main_setup a w = (Ok (a', train_dataloader, test_dataloader, l0), w0) ->
  (dataset a = "cifar10" \/ dataset a = "mnist") /\
  train_dataloader = Loader (load_dataset (dataset a) true) (batch_size a) true /\
  test_dataloader = Loader (load_dataset (dataset a) false) (batch_size a / 4)%Z false /\
  (0 < batch_size a / 4)%Z /\
  num_epoch a' = num_epoch a /\
  beta a' = beta a /\
  l_world l0 = w0 /\
  fs w0 = fs w /\
  train_metric_logger l0 = MeterLogger ["total_loss"; "reconstruction_loss"; "vq_loss"] /\
  val_metric_logger l0 = MeterLogger ["total_loss"; "reconstruction_loss"; "vq_loss"] /\
  exists evs, log w0 = log w ++ evs /\ Forall no_save evs.
Proof.
  unfold main_setup, select_dataset, DataLoader, Model, read_attr, log_event, modify,
    throw, get, mbind, M_bind, bind, mret, M_ret, ret.
  destruct (experiment_log_path a) as [logdir|]; simpl; [|discriminate].
  destruct (String.eqb (dataset a) "cifar10") eqn:Ec; simpl.
  - apply String.eqb_eq in Ec.
    destruct (batch_size a <=? 0)%Z; simpl; [discriminate|].
    destruct (batch_size a / 4 <=? 0)%Z eqn:Eb; simpl; [discriminate|].
    destruct (model_init _ _ _ _ _) as [p r]; simpl.
    intros H. injection H as <- <- <- <- <-. simpl. rewrite Ec.
    repeat split; auto; [lia|].
    eexists. rewrite <- !app_assoc. split; [reflexivity|].
    repeat constructor.
  - destruct (String.eqb (dataset a) "mnist") eqn:Em; simpl; [|discriminate].
    apply String.eqb_eq in Em.
    destruct (batch_size a <=? 0)%Z; simpl; [discriminate|].
    destruct (batch_size a / 4 <=? 0)%Z eqn:Eb; simpl; [discriminate|].
    destruct (model_init _ _ _ _ _) as [p r]; simpl.
    intros H. injection H as <- <- <- <- <-. simpl. rewrite Em.
    repeat split; auto; [lia|].
    eexists. rewrite <- !app_assoc. split; [reflexivity|].
    repeat constructor.
Qed.

(** C6, as the code has it.  The loaders that [main] builds have the
    batch sizes [args.batch_size] and [args.batch_size // 4]; in every
    training batch that is processed the three running averages of the
    training logger are updated with the batch's loss values weighted by
    the batch size of the training loader, and in every evaluation batch
    those of the validation logger by the batch size of the test loader,
    whatever the number of images in the batch. *)
Theorem meters_weighted_by_loader_batch_size
    (a a' : args) (w w0 : world) (train_dataloader test_dataloader : dataloader)
    (l0 : locals) (b b' : batch) (l l1 l' l1' : locals) (ls ls' : losses) :
  main_setup a w = (Ok (a', train_dataloader, test_dataloader, l0), w0) ->
  forward_and_criterion a' true b (set_images b l) = (Ok ls, l1) ->
  forward_and_criterion a' false b' (set_images b' l') = (Ok ls', l1') ->
  dl_batch_size train_dataloader = batch_size a /\
  dl_batch_size test_dataloader = (batch_size a / 4)%Z /\
  (exists l2,
     train_step a' train_dataloader b l = (Ok tt, l2) /\
     train_metric_logger l2 = meters_after ls (batch_size a) (train_metric_logger l) /\
     val_metric_logger l2 = val_metric_logger l /\
     update_weights (train_step_events ls (dl_batch_size train_dataloader)) =
       [batch_size a; batch_size a; batch_size a]) /\
  (exists l2',
     eval_step a' test_dataloader b' l' = (Ok tt, l2') /\
     val_metric_logger l2' = meters_after ls' (batch_size a / 4)%Z (val_metric_logger l') /\
     train_metric_logger l2' = train_metric_logger l' /\
     update_weights (eval_step_events ls' (dl_batch_size test_dataloader)) =
       [batch_size a / 4; batch_size a / 4; batch_size a / 4]%Z).
Proof.
  intros Hs H H'.
  apply main_setup_inv in Hs as (_ & -> & -> & _).
  destruct (train_step_ok a' (Loader (load_dataset (dataset a) true) (batch_size a) true)
              b l l1 ls H) as (l2 & E & _ & Hm & Hv & _).
  destruct (eval_step_ok a' (Loader (load_dataset (dataset a) false) (batch_size a / 4)%Z false)
              b' l' l1' ls' H') as (l2' & E' & _ & Hm' & Hv').
  apply forward_and_criterion_inv in H as (_ & _ & _ & _ & Ht & Hvl & _).
  apply forward_and_criterion_inv in H' as (_ & _ & _ & _ & Ht' & Hvl' & _).
  simpl in *. repeat split.
  - exists l2. rewrite Hm, Hv, Ht, Hvl. auto.
  - exists l2'. rewrite Hm', Hv', Ht', Hvl'. auto.
Qed.

(** *** The phases of an epoch save nothing *)

Lemma quiet_refl (l : locals) : quiet l l.
Proof. split; [reflexivity|]. exists []. rewrite app_nil_r. auto. Qed.

Lemma quiet_trans (l1 l2 l3 : locals) : quiet l1 l2 -> quiet l2 l3 -> quiet l1 l3.
Proof.
  intros (Hf & e1 & He1 & Hq1) (Hf' & e2 & He2 & Hq2). split; [congruence|].
  exists (e1 ++ e2). split.
  - rewrite He2, He1, app_assoc. reflexivity.
  - apply Forall_app. auto.
Qed.

Lemma frozen_quiet (l l' : locals) : frozen l l' -> quiet l l'.
Proof.
  intros (_ & _ & _ & Hf & evs & He & Hev). split; [exact Hf|].
  exists evs. split; [exact He|].
  eapply Forall_impl; [exact Hev|]. intros [] H; simpl in *; auto.
Qed.

Lemma emit_quiet (e : event) (l : locals) : no_save e -> quiet l (emit e l).2.
Proof.
  intros He. split; [reflexivity|]. exists [e]. split; [reflexivity|].
  constructor; [exact He|constructor].
Qed.

Lemma modify_quiet (f : locals -> locals) (l : locals) :
  l_world (f l) = l_world l -> quiet l (modify f l).2.
Proof. intros H. simpl. unfold quiet. rewrite H. apply quiet_refl. Qed.

Lemma batches_quiet (dl : dataloader) (l : locals) :
  quiet l (in_world (batches dl) l).2.
Proof.
  unfold in_world, batches.
  destruct (dl_shuffle dl); [destruct (shuffle _ _)|]; simpl;
    (split; [reflexivity|]; exists []; rewrite app_nil_r; auto).
Qed.

Lemma read_local_quiet {A : Type} (name : string) (v : locals -> option A) (l : locals) :
  quiet l (read_local name v l).2.
Proof. unfold read_local. destruct (v l); apply quiet_refl. Qed.

Lemma forward_and_criterion_quiet (a : args) (ge : bool) (b : batch) (l : locals) :
  quiet l (forward_and_criterion a ge b l).2.
Proof.
  destruct (forward_and_criterion a ge b l) as [r l1] eqn:E.
  apply forward_and_criterion_inv in E as (_ & _ & _ & _ & _ & _ & Hf & Hl).
  split; [exact Hf|]. eexists. split; [exact Hl|]. repeat constructor.
Qed.

Ltac quiet_prim :=
  first
    [ apply batches_quiet
    | apply read_local_quiet
    | apply forward_and_criterion_quiet
    | apply emit_quiet; exact I
    | apply modify_quiet; simpl; try destruct (adam_step _ _ _); reflexivity
    | apply (for_each_rel quiet quiet_refl quiet_trans)
    | apply (bind_rel quiet quiet_trans)
    | apply quiet_refl ].

Lemma train_step_quiet (a : args) (dl : dataloader) (b : batch) (l : locals) :
  quiet l (train_step a dl b l).2.
Proof.
  unfold train_step, zero_grad, backward, optimizer_step, train_metric_update.
  repeat (intros; quiet_prim).
Qed.

Lemma train_phase_quiet (a : args) (dl : dataloader) (epoch : nat) (l : locals) :
  quiet l (train_phase a dl epoch l).2.
Proof.
  unfold train_phase, image_logger_write.
  repeat (intros; first [apply train_step_quiet | quiet_prim]).
Qed.

Lemma eval_phase_frozen (a : args) (dl : dataloader) (epoch : nat) (l : locals) :
  frozen l (eval_phase a dl epoch l).2.
Proof.
  unfold eval_phase.
  frozen_step; [frozen_step|]. intros _ l1 _.
  frozen_step; [frozen_step|]. intros _ l2 _.
  frozen_step; [frozen_step|]. intros _ l3 _.
  frozen_step; [frozen_step|]. intros _ l4 _.
  frozen_step; [frozen_step|]. intros bs l5 _.
  frozen_step; [frozen_step; intros; apply eval_step_frozen|]. intros _ l6 _.
  frozen_step; [frozen_step|]. intros l7 l8 [-> ->]%get_inv.
  frozen_step; [frozen_step|]. intros _ l9 _.
  apply image_logger_write_frozen.
Qed.

(** C7.  Whatever the state in which the evaluation phase of an epoch
    starts, and whether it completes or raises, the state it reaches has
    the same model parameters, the same stored gradients and the same
    optimiser state; every forward pass it makes runs with gradients
    disabled on those parameters, and it calls neither [zero_grad], nor
    [backward], nor the optimiser step, nor a save. *)
Theorem eval_phase_updates_no_parameter
    (a : args) (test_dataloader : dataloader) (epoch : nat) (l : locals) :
  model (eval_phase a test_dataloader epoch l).2 = model l /\
  frozen l (eval_phase a test_dataloader epoch l).2.
Proof.
  pose proof (eval_phase_frozen a test_dataloader epoch l) as H.
  split; [apply H|exact H].
Qed.

(** *** One epoch *)

Lemma bind_ok {S X Y : Type} (m : M S X) (k : X -> M S Y) (s s' : S) (a : X) :
  m s = (Ok a, s') -> (m ≫= k) s = k a s'.
Proof. intros H. unfold mbind, M_bind, bind. rewrite H. reflexivity. Qed.

Lemma bind_err {S X Y : Type} (m : M S X) (k : X -> M S Y) (s s' : S) (e : exn) :
  m s = (Err e, s') -> (m ≫= k) s = (Err e, s').
Proof. intros H. unfold mbind, M_bind, bind. rewrite H. reflexivity. Qed.

Lemma write_file_ok (p : path) (c : content) (w : world) :
  fs w !! p <> Some Dir ->
  parent_error (fs w) p = None ->
  write_file p c w = (Ok tt, World (<[p := File c]> (fs w)) (rng w) (log w)).
Proof.
  intros Hp Hpar. unfold write_file. rewrite Hpar.
  destruct (fs w !! p) as [[|c']|]; try reflexivity. congruence.
Qed.

(** C8.  In an epoch whose training and evaluation phases complete,
    with the module-level name [experiment_model_path] bound as the
    [__main__] block binds it and the checkpoint file creatable, the
    epoch completes and its events are those of the training phase, then
    those of the evaluation phase, then one save: the evaluation reads
    the parameters that the training phase left, neither phase saves,
    and the one file written is [<epoch>.pth] under that path, holding
    those parameters. *)
Theorem epoch_trains_then_evaluates_then_saves
    (g : globals) (a : args) (train_dataloader test_dataloader : dataloader)
    (epoch : nat) (dir : path) (l lT lE : locals) :
  g_experiment_model_path g = Some dir ->
  train_phase a train_dataloader epoch l = (Ok tt, lT) ->
  eval_phase a test_dataloader epoch lT = (Ok tt, lE) ->
  fs (l_world l) !! path_div dir (pretty epoch +:+ ".pth") <> Some Dir ->
  parent_error (fs (l_world l)) (path_div dir (pretty epoch +:+ ".pth")) = None ->
  exists T E lS,
    log (l_world lT) = log (l_world l) ++ T /\
    Forall no_save T /\
    log (l_world lE) = log (l_world lT) ++ E /\
    Forall (eval_event (model lT)) E /\
    epoch_body g a train_dataloader test_dataloader epoch l = (Ok tt, lS) /\
    model lS = model lT /\
    log (l_world lS) =
      log (l_world l) ++ T ++ E ++
        [EvSave (model lT) (path_div dir (pretty epoch +:+ ".pth"))] /\
    fs (l_world lS) =
      <[path_div dir (pretty epoch +:+ ".pth") := File (StateDict (model lT))]>
        (fs (l_world l)).
Proof.
  intros Hg HT HE Hnd Hpar.
  pose proof (train_phase_quiet a train_dataloader epoch l) as (HfT & T & HlT & HqT).
  pose proof (eval_phase_frozen a test_dataloader epoch lT)
    as (Hm & _ & _ & HfE & E & HlE & HqE).
  rewrite HT in HfT, HlT. rewrite HE in Hm, HfE, HlE. simpl in *.
  exists T, E. eexists.
  split; [exact HlT|]. split; [exact HqT|]. split; [exact HlE|]. split; [exact HqE|].
  unfold epoch_body.
  rewrite (bind_ok _ _ _ _ _ HT), (bind_ok _ _ _ _ _ HE).
  unfold save_checkpoint. rewrite Hg.
  unfold read_global, get, emit, in_world, log_event, modify, mbind, M_bind, bind,
    mret, M_ret, ret.
  rewrite write_file_ok by (rewrite HfE, HfT; assumption).
  simpl. split; [reflexivity|]. simpl.
  rewrite Hm, HlE, HlT, HfE, HfT, <- !app_assoc. auto.
Qed.

(** C10, as the code has it.  The checkpoint path is built from the
    module-level name [experiment_model_path] and not from [args]:
    whenever that name is unbound and [main] gets as far as the end of
    its first epoch (the set-up succeeds, there is at least one epoch,
    and the training and evaluation phases of epoch 0 complete), [main]
    raises [NameError] for that name in the world those phases left;
    nothing was saved and no file was written. *)
Theorem unbound_global_fails_at_first_checkpoint
    (g : globals) (a a' : args) (w w0 : world)
    (train_dataloader test_dataloader : dataloader) (l0 lT lE : locals) :
  g_experiment_model_path g = None ->
  main_setup a w = (Ok (a', train_dataloader, test_dataloader, l0), w0) ->
  (0 < num_epoch a)%Z ->
  train_phase a' train_dataloader 0 l0 = (Ok tt, lT) ->
  eval_phase a' test_dataloader 0 lT = (Ok tt, lE) ->
  main g a w = (Err (NameError "experiment_model_path"), l_world lE) /\
  fs (l_world lE) = fs w /\
  exists evs, log (l_world lE) = log w ++ evs /\ Forall no_save evs.
Proof.
  intros Hg Hs Hn HT HE.
  pose proof (main_setup_inv _ _ _ _ _ _ _ Hs)
    as (_ & _ & _ & _ & Hn' & _ & Hw0 & Hf0 & _ & _ & e0 & Hl0 & Hq0).
  pose proof (train_phase_quiet a' train_dataloader 0 l0) as (HfT & T & HlT & HqT).
  pose proof (frozen_quiet _ _ (eval_phase_frozen a' test_dataloader 0 lT))
    as (HfE & E & HlE & HqE).
  rewrite HT in HfT, HlT. rewrite HE in HfE, HlE. simpl in *.
  split; [|split].
  - unfold main. rewrite Hs. unfold epochs. rewrite Hn'.
    destruct (Z.to_nat (num_epoch a)) as [|n] eqn:En; [lia|].
    assert (Hep : epoch_body g a' train_dataloader test_dataloader 0 l0 =
                  (Err (NameError "experiment_model_path"), lE)).
    { unfold epoch_body.
      rewrite (bind_ok _ _ _ _ _ HT), (bind_ok _ _ _ _ _ HE).
      unfold save_checkpoint. rewrite Hg. reflexivity. }
    simpl. rewrite (bind_err _ _ _ _ _ Hep). reflexivity.
  - rewrite HfE, HfT, Hw0. exact Hf0.
  - exists (e0 ++ T ++ E). split.
    + rewrite HlE, HlT, Hw0, Hl0, <- !app_assoc. reflexivity.
    + rewrite !Forall_app. auto.
Qed.

(** *** An invalid dataset name *)














(** *** Determinism of a seeded training step *)





End TrainingProperties.

(** * Sample runs *)

Import Toy.

(** The end-to-end scenario of the specification: the latent vector
    [1,1] goes to row 0 and [9,9] to row 3. *)
Example scenario_nearest_rows :
  res_bind (quantize rows [v2 1 1; v2 9 9])
    (fun qs => Ok (map q_index qs, map q_selected qs)) =
  Ok ([0%nat; 3%nat], [v2 0 0; v2 10 10]).
Proof. vm_compute. reflexivity. Qed.

(** [5,5] is as far from each of the four rows: row 0 is taken. *)
Example scenario_tie_lowest_index :
  res_bind (quantize rows [v2 5 5]) (fun qs => Ok (map q_index qs)) = Ok [0%nat].
Proof. vm_compute. reflexivity. Qed.

Lemma quantize_selects_nearest_row_witness :
  exists qs,
    quantize rows [v2 1 1; v2 9 9; v2 5 5] = Ok qs /\
    map q_index qs = [0%nat; 3%nat; 0%nat].
Proof.
  assert (H : Forall (well_shaped rows) [v2 1 1; v2 9 9; v2 5 5]).
  { repeat first [ discriminate | split | constructor ]. }
  destruct (quantize_selects_nearest_row rows _ H) as (qs & Hq & _).
  exists qs. split; [exact Hq|].
  vm_compute in Hq. injection Hq as <-. reflexivity.
Defined.

Lemma straight_through_value_and_gradient_witness :
  exists qs,
    quantize rows sloped = Ok qs /\
    Forall2 (fun z q =>
      Forall2 (fun o r => val o == val r) (q_output q) (q_selected q) /\
      Forall2 (fun o a => tan o == tan a) (q_output q) z) sloped qs.
Proof.
  assert (H : Forall (well_shaped rows) sloped).
  { repeat first [ discriminate | split | constructor ]. }
  destruct (straight_through_value_and_gradient rows _ H) as (qs & Hq & HF).
  exists qs. split; [exact Hq|].
  eapply Forall2_impl; [exact HF|]. simpl. tauto.
Defined.

Lemma criterion_total_is_sum_witness :
  exists ls,
    Criterion 5 [v2 1 1] [v2 1 1] [v2 0 0] [v2 0 0] = Ok ls /\
    val (total_loss ls) == 7.
Proof.
  destruct (criterion_total_is_sum 5 [v2 1 1] [v2 0 0] [v2 1 1] [v2 0 0])
    as (ls & Hls & Hv & _); try reflexivity; try discriminate.
  exists ls. split; [exact Hls|].
  vm_compute in Hls. injection Hls as <-. reflexivity.
Defined.

Lemma three_of_four_losses_are_aggregated_witness :
  exists l2 l2',
    train_step (cli "cifar10" 1) train_loader short_batch start = (Ok tt, l2) /\
    eval_step (cli "cifar10" 1) test_loader short_batch start = (Ok tt, l2') /\
    updated_names (log (l_world l2)) = ["total_loss"; "reconstruction_loss"; "vq_loss"] /\
    updated_names (log (l_world l2')) = ["total_loss"; "reconstruction_loss"; "vq_loss"].
Proof.
  destruct (forward_and_criterion (cli "cifar10" 1) true short_batch
              (set_images short_batch start)) as [[ls|e] l1] eqn:H;
    [|vm_compute in H; discriminate].
  destruct (forward_and_criterion (cli "cifar10" 1) false short_batch
              (set_images short_batch start)) as [[ls'|e] l1'] eqn:H';
    [|vm_compute in H'; discriminate].
  destruct (three_of_four_losses_are_aggregated (cli "cifar10" 1) train_loader
              test_loader short_batch short_batch start l1 start l1' ls ls' H H')
    as ((l2 & E & Hl & _) & (l2' & E' & Hl' & _) & _).
  exists l2, l2'. split; [exact E|]. split; [exact E'|].
  rewrite Hl, Hl'. split; reflexivity.
Defined.

Lemma meters_weighted_by_loader_batch_size_witness :
  exists l2 l2',
    train_step lib_args' train_loader short_batch setup_locals = (Ok tt, l2) /\
    eval_step lib_args' test_loader short_batch setup_locals = (Ok tt, l2') /\
    (m_count <$> train_metric_logger l2 !! "total_loss") = Some 4%Z /\
    (m_count <$> val_metric_logger l2' !! "total_loss") = Some 1%Z.
Proof.
  assert (Hs : main_setup lib_args fresh =
               (Ok (lib_args', train_loader, test_loader, setup_locals), setup_world)).
  { vm_compute. reflexivity. }
  destruct (forward_and_criterion lib_args' true short_batch
              (set_images short_batch setup_locals)) as [[ls|e] l1] eqn:H;
    [|vm_compute in H; discriminate].
  destruct (forward_and_criterion lib_args' false short_batch
              (set_images short_batch setup_locals)) as [[ls'|e] l1'] eqn:H';
    [|vm_compute in H'; discriminate].
  destruct (meters_weighted_by_loader_batch_size lib_args lib_args' fresh setup_world
              train_loader test_loader setup_locals short_batch short_batch
              setup_locals l1 setup_locals l1' ls ls' Hs H H')
    as (_ & _ & (l2 & E & Hm & _) & (l2' & E' & Hm' & _)).
  exists l2, l2'. split; [exact E|]. split; [exact E'|].
  rewrite Hm, Hm'. split; reflexivity.
Defined.

Lemma epoch_trains_then_evaluates_then_saves_witness :
  exists lS,
    epoch_body (Globals None None (Some ["experiments"])) lib_args' train_loader
      test_loader 0 setup_locals = (Ok tt, lS) /\
    fs (l_world lS) !! ["experiments"; "0.pth"] = Some (File (StateDict (model after_train))) /\
    last (log (l_world lS)) = Some (EvSave (model after_train) ["experiments"; "0.pth"]).
Proof.
  assert (HT : train_phase lib_args' train_loader 0 setup_locals = (Ok tt, after_train)).
  { vm_compute. reflexivity. }
  assert (HE : eval_phase lib_args' test_loader 0 after_train = (Ok tt, after_eval)).
  { vm_compute. reflexivity. }
  destruct (epoch_trains_then_evaluates_then_saves
              (Globals None None (Some ["experiments"])) lib_args' train_loader
              test_loader 0 ["experiments"] setup_locals after_train after_eval
              eq_refl HT HE)
    as (T & E & lS & _ & _ & _ & _ & Hep & _ & Hlog & Hfs).
  - vm_compute. discriminate.
  - vm_compute. reflexivity.
  - exists lS. split; [exact Hep|]. split.
    + rewrite Hfs. apply lookup_insert_eq.
    + rewrite Hlog, !app_assoc. apply last_snoc.
Defined.

Lemma unbound_global_fails_at_first_checkpoint_witness :
  main no_globals lib_args fresh =
    (Err (NameError "experiment_model_path"), l_world after_eval) /\
  experiment_model_path lib_args = Some "experiments/run/models".
Proof.
  assert (Hs : main_setup lib_args fresh =
               (Ok (lib_args', train_loader, test_loader, setup_locals), setup_world)).
  { vm_compute. reflexivity. }
  assert (HT : train_phase lib_args' train_loader 0 setup_locals = (Ok tt, after_train)).
  { vm_compute. reflexivity. }
  assert (HE : eval_phase lib_args' test_loader 0 after_train = (Ok tt, after_eval)).
  { vm_compute. reflexivity. }
  destruct (unbound_global_fails_at_first_checkpoint no_globals lib_args lib_args'
              fresh setup_world train_loader test_loader setup_locals after_train
              after_eval eq_refl Hs eq_refl HT HE) as (Hmain & _).
  split; [exact Hmain|reflexivity].
Defined.



(** ** Runs on which a sentence of the specification fails *)


(** C5: in a whole run of one epoch, fifteen values reach the metric
    loggers, three for each of the five batches, and none of them under
    the name of the commitment loss, for which no running average
    exists. *)
Lemma commitment_loss_is_not_aggregated :
  (script (cli "cifar10" 1) fresh).1 = Ok tt /\
  length (forward_sizes (log (script (cli "cifar10" 1) fresh).2)) = 5%nat /\
  length (updated_names (log (script (cli "cifar10" 1) fresh).2)) = 15%nat /\
  existsb (String.eqb "commitment_loss")
    (updated_names (log (script (cli "cifar10" 1) fresh).2)) = false /\
  train_metric_logger
    (train_step (cli "cifar10" 1) train_loader short_batch start).2
    !! "commitment_loss" = None.
Proof. repeat split; vm_compute; reflexivity. Qed.

(** C6: the training loader cuts five images into a batch of four and a
    batch of one; the batch of one is weighted four, the batch size of
    the loader, not one, the number of its images. *)
Lemma short_batch_is_weighted_as_a_full_one :
  (batches train_loader fresh).1 = Ok [full_batch; short_batch] /\
  length short_batch = 1%nat /\
  (train_step (cli "cifar10" 1) train_loader short_batch start).1 = Ok tt /\
  update_weights
    (log (l_world (train_step (cli "cifar10" 1) train_loader short_batch start).2)) =
    [4%Z; 4%Z; 4%Z] /\
  (m_count <$> train_metric_logger
     (train_step (cli "cifar10" 1) train_loader short_batch start).2 !! "total_loss") =
    Some 4%Z.
Proof. repeat split; vm_compute; reflexivity. Qed.

(** C10: with no epoch to run, [main] called without the module-level
    name returns normally; no [NameError] is raised. *)
Lemma no_epoch_no_name_error :
  g_experiment_model_path no_globals = None /\
  (main no_globals (library_args "cifar10" 0) fresh).1 = Ok tt.
Proof. split; vm_compute; reflexivity. Qed.

(** * Further properties of the script *)

Section ScriptProperties.

Context {B : Backend}.

Lemma bind_ok_inv {S X Y : Type} (m : M S X) (k : X -> M S Y) (s s' : S) (y : Y) :
  (m ≫= k) s = (Ok y, s') ->
  exists x s1, m s = (Ok x, s1) /\ k x s1 = (Ok y, s').
Proof.
  unfold mbind, M_bind, bind. destruct (m s) as [[x|e] s1]; [eauto|discriminate].
Qed.

Lemma for_each_cons_inv {S A : Type} (x : A) (xs : list A) (body : A -> M S unit)
    (s s' : S) :
  for_each (x :: xs) body s = (Ok tt, s') ->
  exists s1, body x s = (Ok tt, s1) /\ for_each xs body s1 = (Ok tt, s').
Proof.
  simpl. intros H. apply bind_ok_inv in H as ([] & s1 & H1 & H2). eauto.
Qed.

(** ** One training step *)

Lemma train_step_inv (a : args) (dl : dataloader) (b : batch) (l l' : locals) :
  train_step a dl b l = (Ok tt, l') ->
  exists ls l1, forward_and_criterion a true b (set_images b l) = (Ok ls, l1).
Proof.
  intros H. destruct (forward_and_criterion a true b (set_images b l)) as [[ls|e] l1] eqn:E.
  - eauto.
  - unfold train_step in H.
    erewrite bind_ok in H by reflexivity.
    erewrite bind_err in H by exact E. discriminate.
Qed.

(** X1.  A training step whose forward pass and criterion succeed takes
    one optimiser step with the gradient of the current batch at the
    current parameters and in the current mode: what the parameters held
    as gradient before the step plays no part, since [zero_grad] comes
    before [backward]. *)
Theorem train_step_uses_gradient_of_its_batch_only
    (a : args) (dl : dataloader) (b : batch) (l l1 : locals) (ls : losses) :
  forward_and_criterion a true b (set_images b l) = (Ok ls, l1) ->
  exists l2,
    train_step a dl b l = (Ok tt, l2) /\
    model_grad l2 = Some (autograd (beta a) (model_training l) (model l) b) /\
    (optimizer l2, model l2) =
      adam_step (optimizer l) (model l)
        (Some (autograd (beta a) (model_training l) (model l) b)) /\
    model_training l2 = model_training l.
Proof.
  intros H.
  destruct (train_step_ok a dl b l l1 ls H) as (l2 & E & _ & _ & _ & Hg & Hstep & _).
  apply forward_and_criterion_inv in H as (Hm & Ht & _ & Ho & _).
  simpl in *. exists l2. rewrite Hm, Ht, Ho in *.
  split; [exact E|]. split; [exact Hg|]. split; [exact Hstep|].
  revert E. unfold train_step, forward_and_criterion, zero_grad, backward,
    optimizer_step, train_metric_update, emit, in_world, log_event, modify,
    lift_res, get, mbind, M_bind, bind. simpl.
  destruct (Model_forward (model l) (model_training l) b) as [f|e]; simpl;
    [|discriminate].
  destruct (Criterion _ _ _ _ _) as [ls0|e]; simpl; [|discriminate].
  destruct (adam_step _ _ _) as [o p]. simpl.
  intros E. injection E as <-. reflexivity.
Qed.

(** X2.  When the forward pass or the criterion raises on a batch, the
    training loop stops at that batch with that exception: the batches
    after it are not looked at, and no gradient is zeroed or computed,
    no optimiser step is taken and no meter is updated for the failing
    batch. *)
Theorem failing_batch_stops_the_training_loop
    (a : args) (dl : dataloader) (done : list batch) (b : batch) (rest : list batch)
    (l l0 l1 : locals) (e : exn) :
  for_each done (train_step a dl) l = (Ok tt, l0) ->
  forward_and_criterion a true b (set_images b l0) = (Err e, l1) ->
  for_each (done ++ b :: rest) (train_step a dl) l = (Err e, l1) /\
  model l1 = model l0 /\
  model_grad l1 = model_grad l0 /\
  optimizer l1 = optimizer l0 /\
  train_metric_logger l1 = train_metric_logger l0 /\
  log (l_world l1) = log (l_world l0) ++ [EvForward true (model l0) b].
Proof.
  intros Hdone Hfail.
  assert (Hstep : train_step a dl b l0 = (Err e, l1)).
  { unfold train_step. erewrite bind_ok by reflexivity.
    erewrite bind_err by exact Hfail. reflexivity. }
  split.
  - clear Hfail. revert l Hdone. induction done as [|x xs IH]; intros l Hdone.
    + simpl in Hdone. injection Hdone as ->. simpl.
      erewrite bind_err by exact Hstep. reflexivity.
    + apply for_each_cons_inv in Hdone as (s1 & Hx & Hxs).
      simpl. erewrite bind_ok by exact Hx. apply IH. exact Hxs.
  - apply forward_and_criterion_inv in Hfail
      as (Hm & _ & Hg & Ho & Ht & _ & _ & Hl). simpl in *. auto.
Qed.

(** ** The set-up of [main] *)

(** X3.  When the set-up of [main] succeeds, the channel count stored in
    [args] is 3 for 'cifar10' and 1 for 'mnist', whatever [args] held
    before, no other argument has changed, and the model has been built
    with that channel count from the generator state [main] was entered
    with. *)
Theorem dataset_fixes_the_channel_count
    (a a' : args) (w w0 : world) (train_dataloader test_dataloader : dataloader)
    (l0 : locals) :
  main_setup a w = (Ok (a', train_dataloader, test_dataloader, l0), w0) ->
  exists c,
    (dataset a = "cifar10" /\ c = 3%Z \/ dataset a = "mnist" /\ c = 1%Z) /\
    a' = set_in_channels a c /\
    (model l0, rng w0) =
      model_init (rng w) c (hidden_channels a) (num_embeddings a) (embedding_dim a) /\
    optimizer l0 = adam_init (lr a) /\
    model_grad l0 = None /\
    model_training l0 = true.
Proof.
  unfold main_setup, select_dataset, DataLoader, Model, read_attr, log_event, modify,
    throw, get, mbind, M_bind, bind, mret, M_ret, ret.
  destruct (experiment_log_path a) as [logdir|]; simpl; [|discriminate].
  destruct (String.eqb (dataset a) "cifar10") eqn:Ec; simpl.
  - apply String.eqb_eq in Ec.
    destruct (batch_size a <=? 0)%Z; simpl; [discriminate|].
    destruct (batch_size a / 4 <=? 0)%Z; simpl; [discriminate|].
    destruct (model_init _ _ _ _ _) as [p r] eqn:Ei; simpl.
    intros H. injection H as <- <- <- <- <-. exists 3%Z. simpl. rewrite Ei. auto 10.
  - destruct (String.eqb (dataset a) "mnist") eqn:Em; simpl; [|discriminate].
    apply String.eqb_eq in Em.
    destruct (batch_size a <=? 0)%Z; simpl; [discriminate|].
    destruct (batch_size a / 4 <=? 0)%Z; simpl; [discriminate|].
    destruct (model_init _ _ _ _ _) as [p r] eqn:Ei; simpl.
    intros H. injection H as <- <- <- <- <-. exists 1%Z. simpl. rewrite Ei. auto 10.
Qed.

(** X4.  With a valid dataset name and a batch size below four, [main]
    raises [ValueError] while building its loaders, the test loader
    being given [batch_size // 4]: the writer has been opened and the
    datasets fetched, but no model is built, and nothing is trained or
    saved. *)
Theorem batch_size_below_four_fails_at_the_loaders
    (g : globals) (a : args) (w : world) (logdir : string) :
  experiment_log_path a = Some logdir ->
  dataset a = "cifar10" \/ dataset a = "mnist" ->
  (batch_size a < 4)%Z ->
  exists msg name,
    main g a w =
      (Err (ValueError msg),
       World (fs w) (rng w)
         (log w ++ [EvWriter logdir; EvHparams a; EvDataset name true;
                    EvDataset name false])).
Proof.
  intros Hlog Hds Hb.
  assert (Hq : (batch_size a <=? 0)%Z = true \/
               ((batch_size a <=? 0)%Z = false /\ (batch_size a / 4 <=? 0)%Z = true)).
  { destruct (Z.leb_spec (batch_size a) 0); [left; reflexivity|right].
    split; [reflexivity|]. apply Z.leb_le.
    assert (batch_size a / 4 < 1)%Z by (apply Z.div_lt_upper_bound; lia). lia. }
  unfold main, main_setup, select_dataset, DataLoader, Model, read_attr, log_event,
    modify, throw, get, mbind, M_bind, bind, mret, M_ret, ret.
  rewrite Hlog. simpl.
  destruct Hds as [Hd|Hd]; rewrite Hd; simpl;
    destruct Hq as [Hq|[Hq1 Hq2]]; rewrite ?Hq, ?Hq1, ?Hq2; simpl;
    rewrite <- !app_assoc; simpl; eauto.
Qed.

Lemma main_setup_log (a a' : args) (w w0 : world)
    (train_dataloader test_dataloader : dataloader) (l0 : locals) :
  main_setup a w = (Ok (a', train_dataloader, test_dataloader, l0), w0) ->
  exists logdir name,
    log w0 = log w ++ [EvWriter logdir; EvHparams a; EvDataset name true;
                       EvDataset name false; EvPrintModel (model l0)].
Proof.
  unfold main_setup, select_dataset, DataLoader, Model, read_attr, log_event, modify,
    throw, get, mbind, M_bind, bind, mret, M_ret, ret.
  destruct (experiment_log_path a) as [logdir|]; simpl; [|discriminate].
  destruct (String.eqb (dataset a) "cifar10"); simpl.
  - destruct (batch_size a <=? 0)%Z; simpl; [discriminate|].
    destruct (batch_size a / 4 <=? 0)%Z; simpl; [discriminate|].
    destruct (model_init _ _ _ _ _) as [p r]; simpl.
    intros H. injection H as _ _ _ <- <-. simpl.
    rewrite <- !app_assoc. simpl. eauto.
  - destruct (String.eqb (dataset a) "mnist"); simpl; [|discriminate].
    destruct (batch_size a <=? 0)%Z; simpl; [discriminate|].
    destruct (batch_size a / 4 <=? 0)%Z; simpl; [discriminate|].
    destruct (model_init _ _ _ _ _) as [p r]; simpl.
    intros H. injection H as _ _ _ <- <-. simpl.
    rewrite <- !app_assoc. simpl. eauto.
Qed.

(** X5.  With an epoch count of zero or less, [main] does its set-up
    and returns normally in the world the set-up left, bound
    module-level name or not: no batch is processed and nothing is
    saved. *)
Theorem no_epoch_returns_after_setup
    (g : globals) (a a' : args) (w w0 : world)
    (train_dataloader test_dataloader : dataloader) (l0 : locals) :
  main_setup a w = (Ok (a', train_dataloader, test_dataloader, l0), w0) ->
  (num_epoch a <= 0)%Z ->
  main g a w = (Ok tt, w0) /\
  exists evs,
    log w0 = log w ++ evs /\ saves evs = [] /\ forward_sizes evs = [].
Proof.
  intros Hs Hn.
  pose proof (main_setup_inv _ _ _ _ _ _ _ Hs)
    as (_ & _ & _ & _ & Hn' & _ & Hw0 & _).
  destruct (main_setup_log _ _ _ _ _ _ _ Hs) as (logdir & name & Hlog).
  split.
  - unfold main. rewrite Hs. unfold epochs. rewrite Hn'.
    replace (Z.to_nat (num_epoch a)) with 0%nat by lia. simpl. rewrite Hw0. reflexivity.
  - eexists. split; [exact Hlog|]. split; reflexivity.
Qed.

(** ** The [__main__] block *)

Lemma path_exists_true (p : path) (w : world) (x : node) :
  fs w !! p = Some x -> path_exists p w = (Ok true, w).
Proof.
  intros H. unfold path_exists. rewrite H.
  rewrite bool_decide_eq_true_2; [reflexivity|]. eauto.
Qed.

(** X6.  Run again under an experiment name whose directory and whose
    [logs] and [models] directories exist, the [__main__] block creates
    no directory and raises no error for their existence; it writes
    [config.json] anew, whatever the file held, with the arguments as
    they stand at that point (the experiment root set, the log and
    model paths not yet), prints the arguments and calls [main] with the
    three module-level names bound. *)
Theorem rerun_reuses_directories_and_rewrites_config
    (a : args) (w : world) (name : string) :
  experiment_name a = Some name ->
  fs w !! ["experiments"; name] = Some Dir ->
  fs w !! ["experiments"; name; "logs"] = Some Dir ->
  fs w !! ["experiments"; name; "models"] = Some Dir ->
  fs w !! ["experiments"; name; "config.json"] <> Some Dir ->
  let root := ["experiments"; name] in
  let a1 := set_experiment_root a (path_str root) in
  let a3 :=
    set_experiment_model_path
      (set_experiment_log_path a1 (path_str (path_div root "logs")))
      (path_str (path_div root "models")) in
  script a w =
    main (Globals (Some root) (Some (path_div root "logs"))
            (Some (path_div root "models"))) a3
      (World (<[path_div root "config.json" := File (ConfigJson a1)]> (fs w))
         (seed_rng (seed a)) (log w ++ [EvPrintArgs a3])).
Proof.
  intros Hname Hroot Hlogs Hmodels Hconfig root a1 a3.
  unfold script. rewrite Hname. unfold path_div. simpl app.
  erewrite bind_ok; [|reflexivity].
  erewrite bind_ok; [|eapply path_exists_true; exact Hroot].
  simpl negb. unfold when_.
  erewrite bind_ok; [|reflexivity].
  erewrite bind_ok.
  2:{ apply write_file_ok; simpl; [exact Hconfig|].
      unfold parent_error. simpl. rewrite Hroot. reflexivity. }
  erewrite bind_ok.
  2:{ eapply path_exists_true. simpl.
      rewrite lookup_insert_ne by congruence. exact Hlogs. }
  erewrite bind_ok; [|reflexivity].
  erewrite bind_ok.
  2:{ eapply path_exists_true. simpl.
      rewrite lookup_insert_ne by congruence. exact Hmodels. }
  erewrite bind_ok; [|reflexivity].
  erewrite bind_ok; [|reflexivity].
  reflexivity.
Qed.


(** X8.  Started without [--experiment-name], which has no default, the
    [__main__] block raises [TypeError] when it joins the name to
    [experiments]: the generator has been seeded, and nothing else has
    happened. *)
Theorem missing_experiment_name_is_a_type_error (a : args) (w : world) :
  experiment_name a = None ->
  exists msg,
    script a w = (Err (TypeError msg), World (fs w) (seed_rng (seed a)) (log w)).
Proof.
  intros Hname. unfold script. rewrite Hname.
  erewrite bind_ok; [|reflexivity]. eexists. reflexivity.
Qed.

(** ** Training and evaluation mode *)

Lemma same_mode_refl (l : locals) : same_mode l l.
Proof. reflexivity. Qed.

Lemma same_mode_trans (l1 l2 l3 : locals) :
  same_mode l1 l2 -> same_mode l2 l3 -> same_mode l1 l3.
Proof. unfold same_mode. congruence. Qed.

Lemma forward_and_criterion_same_mode (a : args) (ge : bool) (b : batch) (l : locals) :
  same_mode l (forward_and_criterion a ge b l).2.
Proof.
  destruct (forward_and_criterion a ge b l) as [r l1] eqn:E.
  apply forward_and_criterion_inv in E as (_ & H & _). exact H.
Qed.

Ltac same_mode_prim :=
  first
    [ apply forward_and_criterion_same_mode
    | apply (for_each_rel same_mode same_mode_refl same_mode_trans)
    | apply (bind_rel same_mode same_mode_trans)
    | match goal with
      | |- same_mode ?l (in_world (batches ?dl) ?l).2 =>
          unfold in_world, batches;
          destruct (dl_shuffle dl); [destruct (shuffle _ _)|]; reflexivity
      | |- same_mode ?l (read_local _ ?v ?l).2 =>
          unfold read_local; destruct (v l); reflexivity
      | |- same_mode ?l (modify _ ?l).2 =>
          unfold same_mode; simpl; try destruct (adam_step _ _ _); reflexivity
      end
    | reflexivity ].

Lemma train_step_same_mode (a : args) (dl : dataloader) (b : batch) (l : locals) :
  same_mode l (train_step a dl b l).2.
Proof.
  unfold train_step, zero_grad, backward, optimizer_step, train_metric_update.
  repeat (intros; same_mode_prim).
Qed.

Lemma eval_step_same_mode (a : args) (dl : dataloader) (b : batch) (l : locals) :
  same_mode l (eval_step a dl b l).2.
Proof.
  unfold eval_step, val_metric_update.
  repeat (intros; same_mode_prim).
Qed.

(** X9.  However a phase is entered and however it ends, the model is
    in training mode at the end of the training phase of an epoch and in
    evaluation mode at the end of its evaluation phase, and no training
    or evaluation step changes the mode: the forward passes of a phase
    run in the mode of that phase, and the mode left by the previous
    phase or epoch does not carry over. *)
Theorem phases_set_their_mode
    (a : args) (train_dataloader test_dataloader : dataloader) (epoch : nat)
    (l : locals) :
  model_training (train_phase a train_dataloader epoch l).2 = true /\
  model_training (eval_phase a test_dataloader epoch l).2 = false /\
  (forall b l1, model_training (train_step a train_dataloader b l1).2 = model_training l1) /\
  (forall b l1, model_training (eval_step a test_dataloader b l1).2 = model_training l1).
Proof.
  split; [|split; [|split]].
  - unfold train_phase. do 4 (erewrite bind_ok; [|reflexivity]).
    match goal with
    | |- model_training (_ ?l4).2 = true => transitivity (model_training l4)
    end; [|reflexivity].
    unfold image_logger_write.
    repeat (intros; first [apply train_step_same_mode | same_mode_prim]).
  - unfold eval_phase. do 4 (erewrite bind_ok; [|reflexivity]).
    match goal with
    | |- model_training (_ ?l4).2 = false => transitivity (model_training l4)
    end; [|reflexivity].
    unfold image_logger_write.
    repeat (intros; first [apply eval_step_same_mode | same_mode_prim]).
  - intros b l1. apply train_step_same_mode.
  - intros b l1. apply eval_step_same_mode.
Qed.

(** ** Checkpoints *)

Lemma list_ascii_of_string_app (s t : string) :
  String.list_ascii_of_string (s +:+ t) =
  String.list_ascii_of_string s ++ String.list_ascii_of_string t.
Proof. induction s as [|c s IH]; simpl; [reflexivity|]. rewrite IH. reflexivity. Qed.

Lemma string_app_inv_tail (s1 s2 t : string) : s1 +:+ t = s2 +:+ t -> s1 = s2.
Proof.
  intros H. apply (f_equal String.list_ascii_of_string) in H.
  rewrite !list_ascii_of_string_app in H. apply app_inv_tail in H.
  rewrite <- (String.string_of_list_ascii_of_string s1),
          <- (String.string_of_list_ascii_of_string s2), H.
  reflexivity.
Qed.

Lemma checkpoint_file_inj (dir : path) (e1 e2 : nat) :
  checkpoint_file dir e1 = checkpoint_file dir e2 -> e1 = e2.
Proof.
  unfold checkpoint_file, path_div. intros H.
  apply app_inv_head in H. injection H as H.
  apply string_app_inv_tail in H. apply (inj pretty) in H. exact H.
Qed.

Lemma saves_app (e1 e2 : list event) : saves (e1 ++ e2) = saves e1 ++ saves e2.
Proof. unfold saves. apply omap_app. Qed.

Lemma saves_no_save (evs : list event) : Forall no_save evs -> saves evs = [].
Proof.
  induction 1 as [|e evs He _ IH]; [reflexivity|].
  destruct e; simpl in *; try exact IH. contradiction.
Qed.

Lemma save_checkpoint_inv (g : globals) (epoch : nat) (dir : path) (l l' : locals) :
  g_experiment_model_path g = Some dir ->
  save_checkpoint g epoch l = (Ok tt, l') ->
  model l' = model l /\
  fs (l_world l') =
    <[checkpoint_file dir epoch := File (StateDict (model l))]> (fs (l_world l)) /\
  log (l_world l') = log (l_world l) ++ [EvSave (model l) (checkpoint_file dir epoch)].
Proof.
  intros Hg. unfold save_checkpoint. rewrite Hg.
  unfold read_global, get, emit, in_world, log_event, modify, write_file, mbind,
    M_bind, bind, mret, M_ret, ret. simpl.
  fold (checkpoint_file dir epoch).
  destruct (fs (l_world l) !! checkpoint_file dir epoch) as [[|c]|];
    [discriminate| |];
    (destruct (parent_error _ _); [discriminate|]);
    simpl; intros H; injection H as <-; simpl; auto.
Qed.

Lemma epoch_body_inv (g : globals) (a : args) (tdl vdl : dataloader) (epoch : nat)
    (dir : path) (l l' : locals) :
  g_experiment_model_path g = Some dir ->
  epoch_body g a tdl vdl epoch l = (Ok tt, l') ->
  fs (l_world l') =
    <[checkpoint_file dir epoch := File (StateDict (model l'))]> (fs (l_world l)) /\
  exists T,
    Forall no_save T /\
    log (l_world l') = log (l_world l) ++ T ++ [EvSave (model l') (checkpoint_file dir epoch)].
Proof.
  intros Hg H. unfold epoch_body in H.
  apply bind_ok_inv in H as ([] & lT & HT & H).
  apply bind_ok_inv in H as ([] & lE & HE & H).
  pose proof (train_phase_quiet a tdl epoch l) as (HfT & T & HlT & HqT).
  pose proof (frozen_quiet _ _ (eval_phase_frozen a vdl epoch lT)) as (HfE & E & HlE & HqE).
  rewrite HT in HfT, HlT. rewrite HE in HfE, HlE. simpl in *.
  apply (save_checkpoint_inv g epoch dir lE l' Hg) in H as (Hm & Hf & Hl).
  split.
  - rewrite Hf, Hm, HfE, HfT. reflexivity.
  - exists (T ++ E). split; [apply Forall_app; auto|].
    rewrite Hl, Hm, HlE, HlT, <- !app_assoc. reflexivity.
Qed.

Lemma epochs_leave_checkpoints (g : globals) (a : args) (tdl vdl : dataloader)
    (dir : path) (n s : nat) (l l' : locals) :
  g_experiment_model_path g = Some dir ->
  for_each (seq s n) (epoch_body g a tdl vdl) l = (Ok tt, l') ->
  (forall q, (forall e, (s <= e < s + n)%nat -> q <> checkpoint_file dir e) ->
             fs (l_world l') !! q = fs (l_world l) !! q) /\
  exists evs,
    log (l_world l') = log (l_world l) ++ evs /\
    map snd (saves evs) = map (checkpoint_file dir) (seq s n) /\
    (forall p file, (p, file) ∈ saves evs ->
       fs (l_world l') !! file = Some (File (StateDict p))) /\
    ((0 < n)%nat ->
       last (saves evs) = Some (model l', checkpoint_file dir (s + n - 1))).
Proof.
  intros Hg. revert s l. induction n as [|n IH]; intros s l H.
  - simpl in H. injection H as <-. split; [auto|].
    exists []. rewrite app_nil_r. simpl. repeat split; auto.
    + intros p file Hin. inversion Hin.
    + lia.
  - simpl seq in H. apply for_each_cons_inv in H as (l1 & H1 & H2).
    apply (epoch_body_inv g a tdl vdl s dir l l1 Hg) in H1 as (Hf1 & T & HT & Hl1).
    pose proof H2 as H2'.
    apply IH in H2 as (Hframe & evs & Hl' & Hpaths & Hfiles & Hlast).
    split.
    + intros q Hq. rewrite Hframe by (intros e He; apply Hq; lia).
      rewrite Hf1. apply lookup_insert_ne. apply not_eq_sym, Hq. lia.
    + exists ((T ++ [EvSave (model l1) (checkpoint_file dir s)]) ++ evs).
      assert (Hs : saves ((T ++ [EvSave (model l1) (checkpoint_file dir s)]) ++ evs) =
                   (model l1, checkpoint_file dir s) :: saves evs).
      { rewrite !saves_app, (saves_no_save T HT). reflexivity. }
      rewrite Hs. split; [|split; [|split]].
      * rewrite Hl', Hl1, <- !app_assoc. reflexivity.
      * simpl. rewrite Hpaths. reflexivity.
      * intros p file Hin. apply elem_of_cons in Hin as [Heq|Hin].
        -- injection Heq as -> ->.
           rewrite Hframe.
           ++ rewrite Hf1. apply lookup_insert_eq.
           ++ intros e He Heq. apply checkpoint_file_inj in Heq. lia.
        -- apply Hfiles. exact Hin.
      * intros _. destruct n as [|n'].
        -- simpl in H2'. injection H2' as <-.
           simpl in Hpaths. apply map_eq_nil in Hpaths. rewrite Hpaths. simpl.
           replace (s + 1 - 1)%nat with s by lia. reflexivity.
        -- rewrite last_cons, Hlast by lia.
           replace (S s + S n' - 1)%nat with (s + S (S n') - 1)%nat by lia.
           reflexivity.
Qed.

(** X10.  When [main] completes with the module-level name
    [experiment_model_path] bound to a directory, it has saved once per
    epoch, in order, to [0.pth], [1.pth], ... under that directory, and at
    the end every one of these files still holds the parameters that
    were saved to it: the file names of different epochs differ, so no
    checkpoint of the run is overwritten by a later one. *)
Theorem completed_run_keeps_one_checkpoint_per_epoch
    (g : globals) (a : args) (w w' : world) (dir : path) :
  g_experiment_model_path g = Some dir ->
  main g a w = (Ok tt, w') ->
  exists evs,
    log w' = log w ++ evs /\
    map snd (saves evs) = map (checkpoint_file dir) (seq 0 (Z.to_nat (num_epoch a))) /\
    (forall p file, (p, file) ∈ saves evs ->
       fs w' !! file = Some (File (StateDict p))) /\
    (forall e1 e2, checkpoint_file dir e1 = checkpoint_file dir e2 -> e1 = e2).
Proof.
  intros Hg H. unfold main in H.
  destruct (main_setup a w) as [[[[[a' tdl] vdl] l0]|e] w0] eqn:Hs; [|discriminate].
  destruct (for_each _ _ l0) as [r l] eqn:Hloop. injection H as -> <-.
  pose proof (main_setup_inv _ _ _ _ _ _ _ Hs)
    as (_ & _ & _ & _ & Hn' & _ & Hw0 & _ & _ & _ & e0 & Hl0 & Hq0).
  unfold epochs in Hloop. rewrite Hn' in Hloop.
  apply (epochs_leave_checkpoints g a' tdl vdl dir _ 0 l0 l Hg) in Hloop
    as (_ & evs & Hl & Hpaths & Hfiles & _).
  exists (e0 ++ evs). split; [|split; [|split]].
  - rewrite Hl, Hw0, Hl0, <- app_assoc. reflexivity.
  - rewrite saves_app, (saves_no_save e0 Hq0). exact Hpaths.
  - intros p file Hin. rewrite saves_app, (saves_no_save e0 Hq0) in Hin.
    apply Hfiles. exact Hin.
  - apply checkpoint_file_inj.
Qed.

(** ** What a training phase leaves *)

Lemma train_step_images (a : args) (dl : dataloader) (b : batch) (l l' : locals) :
  train_step a dl b l = (Ok tt, l') ->
  images l' = Some b /\ is_Some (reconstruction l') /\
  val_metric_logger l' = val_metric_logger l /\
  exists ls, train_metric_logger l' = meters_after ls (dl_batch_size dl) (train_metric_logger l).
Proof.
  unfold train_step, forward_and_criterion, zero_grad, backward, optimizer_step,
    train_metric_update, emit, in_world, log_event, modify, lift_res, get,
    mbind, M_bind, bind. simpl.
  destruct (Model_forward (model l) (model_training l) b) as [f|e]; simpl;
    [|discriminate].
  destruct (Criterion _ _ _ _ _) as [ls|e]; simpl; [|discriminate].
  destruct (adam_step _ _ _) as [o p]. simpl.
  intros H. injection H as <-. simpl. eauto 10.
Qed.

Lemma meters_after_count (ls : losses) (n : Z) (m : gmap string meter) (name : string) :
  name ∈ meter_names ->
  m_count <$> (meters_after ls n m !! name) =
  (fun c => (c + n)%Z) <$> (m_count <$> (m !! name)).
Proof.
  unfold meter_names, meters_after, meter_update. intros Hin.
  repeat (apply elem_of_cons in Hin as [->|Hin]);
    [| | |inversion Hin];
    repeat first [ rewrite lookup_alter_eq | rewrite lookup_alter_ne by discriminate ];
    destruct (m !! _) as [[sm c]|]; reflexivity.
Qed.

Lemma meters_after_other (ls : losses) (n : Z) (m : gmap string meter) (name : string) :
  name ∉ meter_names -> meters_after ls n m !! name = m !! name.
Proof.
  unfold meter_names, meters_after, meter_update. intros Hnot.
  rewrite !lookup_alter_ne; [reflexivity|..]; intros <-; apply Hnot;
    repeat constructor.
Qed.

Lemma train_loop_inv (a : args) (dl : dataloader) (bs : list batch) (l l' : locals) :
  for_each bs (train_step a dl) l = (Ok tt, l') ->
  (forall name, name ∈ meter_names ->
     m_count <$> (train_metric_logger l' !! name) =
     (fun c => (c + Z.of_nat (length bs) * dl_batch_size dl)%Z) <$>
       (m_count <$> (train_metric_logger l !! name))) /\
  (forall name, name ∉ meter_names ->
     train_metric_logger l' !! name = train_metric_logger l !! name) /\
  val_metric_logger l' = val_metric_logger l /\
  images l' = match last bs with Some b => Some b | None => images l end /\
  (bs <> [] -> is_Some (reconstruction l')) /\
  (bs = [] -> l' = l).
Proof.
  revert l. induction bs as [|b bs IH]; intros l H.
  - simpl in H. injection H as <-. repeat split; auto; try congruence.
    intros name _. destruct (train_metric_logger l !! name) as [[sm c]|]; simpl;
      [|reflexivity]. f_equal. lia.
  - apply for_each_cons_inv in H as (l1 & H1 & H2).
    apply train_step_images in H1 as (Hi & Hr & Hv & ls & Ht).
    pose proof H2 as H2'.
    apply IH in H2 as (Hc & Ho & Hv' & Hi' & Hr' & Hnil).
    split; [|split; [|split; [|split; [|split]]]].
    + intros name Hin. rewrite (Hc name Hin), Ht, (meters_after_count _ _ _ _ Hin).
      destruct (train_metric_logger l !! name) as [[sm c]|]; simpl; [|reflexivity].
      f_equal. rewrite Nat2Z.inj_succ. lia.
    + intros name Hnot. rewrite (Ho name Hnot), Ht. apply meters_after_other. exact Hnot.
    + congruence.
    + rewrite Hi'. destruct bs as [|b' bs']; simpl; [exact Hi|].
      repeat rewrite last_cons. destruct (last bs'); reflexivity.
    + intros _. destruct bs as [|b' bs'].
      * rewrite (Hnil eq_refl). exact Hr.
      * apply Hr'. discriminate.
    + discriminate.
Qed.

Lemma bind_total_inv {S X Y : Type} (m : M S X) (k : X -> M S Y) (s s1 s' : S)
    (x : X) (y : res Y) :
  m s = (Ok x, s1) -> (m ≫= k) s = (y, s') -> k x s1 = (y, s').
Proof. intros Hm. rewrite (bind_ok _ _ _ _ _ Hm). auto. Qed.

Lemma batches_inv (dl : dataloader) (l l1 : locals) (bs : list batch) :
  in_world (batches dl) l = (Ok bs, l1) ->
  (batches dl (l_world l)).1 = Ok bs /\
  log (l_world l1) = log (l_world l) /\
  model l1 = model l /\
  train_metric_logger l1 = train_metric_logger l /\
  val_metric_logger l1 = val_metric_logger l /\
  images l1 = images l.
Proof.
  unfold in_world, batches.
  destruct (dl_shuffle dl); [destruct (shuffle _ _) as [perm r]|]; simpl;
    intros H; injection H as <- <-; simpl; auto 10.
Qed.

Lemma batches_depend_on_generator (dl : dataloader) (w w' : world) :
  rng w' = rng w -> (batches dl w').1 = (batches dl w).1.
Proof.
  intros H. unfold batches. rewrite H.
  destruct (dl_shuffle dl); [destruct (shuffle _ _)|]; reflexivity.
Qed.

(** What a completed training phase went through: the batches of one
    pass over the loader, the state [l1] in which the loop over them
    started, and the state [l2] in which it ended. *)
Lemma train_phase_inv (a : args) (dl : dataloader) (epoch : nat) (l l' : locals) :
  train_phase a dl epoch l = (Ok tt, l') ->
  exists bs l1 l2 imgs rec,
    (batches dl (l_world l)).1 = Ok bs /\
    train_metric_logger l1 = meter_reset (train_metric_logger l) /\
    images l1 = images l /\
    log (l_world l1) = log (l_world l) ++ [EvMeterReset "train"; EvModelTrain] /\
    for_each bs (train_step a dl) l1 = (Ok tt, l2) /\
    images l2 = Some imgs /\
    reconstruction l2 = Some rec /\
    train_metric_logger l' = train_metric_logger l2 /\
    images l' = images l2 /\
    model l' = model l2 /\
    log (l_world l') =
      log (l_world l2) ++
        [EvMeterWrite "train" epoch (train_metric_logger l2);
         EvImageWrite imgs rec epoch "train";
         EvVQWrite (codebook_of (model l2)) epoch].
Proof.
  intros H. unfold train_phase in H.
  do 4 (erewrite bind_ok in H; [|reflexivity]).
  apply bind_ok_inv in H as (bs & l1 & Hb & H).
  apply batches_inv in Hb as (Hbs & Hlog1 & Hm1 & Ht1 & Hv1 & Hi1).
  apply bind_ok_inv in H as ([] & l2 & Hloop & H).
  apply bind_ok_inv in H as (l2' & l2'' & [-> ->]%get_inv & H).
  erewrite bind_ok in H; [|reflexivity].
  unfold image_logger_write in H.
  apply bind_ok_inv in H as ([] & l3 & Himg & H).
  apply bind_ok_inv in Himg as (imgs & l4 & Hri & Himg).
  apply bind_ok_inv in Himg as (rec & l5 & Hrr & Himg).
  unfold read_local in Hri, Hrr. simpl in Hri.
  destruct (images l2) as [imgs'|] eqn:Ei; [|discriminate]. injection Hri as -> <-.
  simpl in Hrr.
  destruct (reconstruction l2) as [rec'|] eqn:Er; [|discriminate]. injection Hrr as -> <-.
  unfold emit, in_world, log_event, modify in Himg, H. simpl in Himg, H.
  injection Himg as <-. injection H as <-. simpl.
  exists bs, l1, l2, imgs, rec.
  split; [rewrite <- Hbs; symmetry; apply batches_depend_on_generator; reflexivity|].
  simpl in *.
  split; [exact Ht1|]. split; [exact Hi1|].
  split; [rewrite Hlog1, <- app_assoc; reflexivity|].
  split; [exact Hloop|]. split; [exact Ei|]. split; [exact Er|].
  split; [reflexivity|]. split; [reflexivity|]. split; [reflexivity|].
  rewrite <- !app_assoc. reflexivity.
Qed.

(** X11.  The running averages of the training logger start from zero in
    every epoch: when a training phase completes, the count behind each
    of the three averages is the number of batches of that pass times
    the batch size of the loader, whatever the logger held before the
    phase, and the validation logger is as it was. *)
Theorem training_phase_counts_from_zero
    (a : args) (train_dataloader : dataloader) (epoch : nat) (l l' : locals) :
  train_phase a train_dataloader epoch l = (Ok tt, l') ->
  exists bs,
    (batches train_dataloader (l_world l)).1 = Ok bs /\
    (forall name m, name ∈ meter_names ->
       train_metric_logger l' !! name = Some m ->
       m_count m = (Z.of_nat (length bs) * dl_batch_size train_dataloader)%Z) /\
    dom (train_metric_logger l') = dom (train_metric_logger l) /\
    val_metric_logger l' = val_metric_logger l.
Proof.
  intros H.
  assert (Hval : val_metric_logger l' = val_metric_logger l).
  { pose proof H as H'. unfold train_phase in H'.
    do 4 (erewrite bind_ok in H'; [|reflexivity]).
    apply bind_ok_inv in H' as (bs & l1 & Hb & H').
    apply batches_inv in Hb as (_ & _ & _ & _ & Hv1 & _).
    apply bind_ok_inv in H' as ([] & l2 & Hloop & H').
    apply train_loop_inv in Hloop as (_ & _ & Hv2 & _).
    apply bind_ok_inv in H' as (l2' & l2'' & [-> ->]%get_inv & H').
    erewrite bind_ok in H'; [|reflexivity].
    unfold image_logger_write in H'.
    apply bind_ok_inv in H' as ([] & l3 & Himg & H').
    apply bind_ok_inv in Himg as (imgs & l4 & Hri & Himg).
    apply bind_ok_inv in Himg as (rec & l5 & Hrr & Himg).
    unfold read_local in Hri, Hrr. simpl in Hri.
    destruct (images l2) as [imgs'|]; [|discriminate]. injection Hri as -> <-.
    simpl in Hrr.
    destruct (reconstruction l2) as [rec'|]; [|discriminate]. injection Hrr as -> <-.
    unfold emit, in_world, log_event, modify in Himg, H'. simpl in Himg, H'.
    injection Himg as <-. injection H' as <-. simpl in *. congruence. }
  apply train_phase_inv in H
    as (bs & l1 & l2 & imgs & rec & Hbs & Ht1 & _ & _ & Hloop & _ & _ & Ht' & _).
  apply train_loop_inv in Hloop as (Hc & Ho & _).
  exists bs. split; [exact Hbs|]. split; [|split; [|exact Hval]].
  - intros name m Hin Hm. specialize (Hc name Hin).
    rewrite <- Ht', Hm, Ht1 in Hc. unfold meter_reset in Hc.
    rewrite lookup_fmap in Hc.
    destruct (train_metric_logger l !! name) as [m0|]; simpl in Hc; [|discriminate].
    injection Hc as ->. lia.
  - rewrite Ht'. apply set_eq. intros name. rewrite !elem_of_dom.
    destruct (decide (name ∈ meter_names)) as [Hin|Hnot].
    + specialize (Hc name Hin). rewrite Ht1 in Hc. unfold meter_reset in Hc.
      rewrite lookup_fmap in Hc.
      destruct (train_metric_logger l2 !! name) as [m2|],
               (train_metric_logger l !! name) as [m0|]; simpl in Hc;
        try discriminate; split; intros [x Hx]; eauto; discriminate.
    + rewrite (Ho name Hnot), Ht1. unfold meter_reset. rewrite lookup_fmap.
      destruct (train_metric_logger l !! name); simpl; split; intros [x Hx]; eauto;
        discriminate.
Qed.

(** X12.  A training phase that completes ends by writing, in this
    order, the training metrics, one image record and the codebook of
    the model as training left it.  The images of that record are those
    of the last batch of the pass; if the pass had no batch, they are
    the images left in the variable [images] by an earlier phase. *)
Theorem training_phase_logs_last_batch_and_trained_codebook
    (a : args) (train_dataloader : dataloader) (epoch : nat) (l l' : locals) :
  train_phase a train_dataloader epoch l = (Ok tt, l') ->
  exists bs T imgs rec,
    (batches train_dataloader (l_world l)).1 = Ok bs /\
    images l' = Some imgs /\
    (forall b, last bs = Some b -> imgs = b) /\
    (bs = [] -> images l = Some imgs) /\
    log (l_world l') =
      log (l_world l) ++ T ++
        [EvMeterWrite "train" epoch (train_metric_logger l');
         EvImageWrite imgs rec epoch "train";
         EvVQWrite (codebook_of (model l')) epoch].
Proof.
  intros H.
  apply train_phase_inv in H
    as (bs & l1 & l2 & imgs & rec & Hbs & _ & Hi1 & Hl1 & Hloop & Hi2 & _ & Ht' & Hi' &
        Hm' & Hl').
  pose proof (for_each_rel quiet quiet_refl quiet_trans bs (train_step a train_dataloader)
                l1 (train_step_quiet a train_dataloader)) as (_ & T & HlT & _).
  rewrite Hloop in HlT. simpl in HlT.
  apply train_loop_inv in Hloop as (_ & _ & _ & Hlast & _ & Hnil).
  exists bs, ([EvMeterReset "train"; EvModelTrain] ++ T), imgs, rec.
  split; [exact Hbs|]. split; [congruence|]. split; [|split].
  - intros b Hb. rewrite Hb in Hlast. congruence.
  - intros ->. simpl in Hlast. congruence.
  - rewrite Hl', Ht', Hm', HlT, Hl1, <- !app_assoc. reflexivity.
Qed.

(** ** An epoch that raises *)

(** X13.  When the training phase of an epoch raises, or when it
    completes and the evaluation phase raises, the epoch raises that
    exception and saves nothing: no save is made, and the checkpoint
    file of the epoch, under whatever directory, is as it was before
    the epoch, whether the module-level name is bound or not. *)
Theorem failed_phase_saves_no_checkpoint
    (g : globals) (a : args) (train_dataloader test_dataloader : dataloader)
    (epoch : nat) (l : locals) (x : exn) :
  (train_phase a train_dataloader epoch l).1 = Err x \/
  (exists lT, train_phase a train_dataloader epoch l = (Ok tt, lT) /\
              (eval_phase a test_dataloader epoch lT).1 = Err x) ->
  (epoch_body g a train_dataloader test_dataloader epoch l).1 = Err x /\
  (forall dir,
     fs (l_world (epoch_body g a train_dataloader test_dataloader epoch l).2)
       !! checkpoint_file dir epoch =
     fs (l_world l) !! checkpoint_file dir epoch) /\
  exists evs,
    log (l_world (epoch_body g a train_dataloader test_dataloader epoch l).2) =
      log (l_world l) ++ evs /\
    saves evs = [].
Proof.
  intros [H|(lT & HT & H)].
  - destruct (train_phase a train_dataloader epoch l) as [r l1] eqn:E.
    simpl in H. subst r.
    pose proof (train_phase_quiet a train_dataloader epoch l) as (Hf & evs & Hl & Hq).
    rewrite E in Hf, Hl. simpl in Hf, Hl.
    unfold epoch_body. rewrite (bind_err _ _ _ _ _ E). simpl.
    split; [reflexivity|]. split; [intros dir; rewrite Hf; reflexivity|].
    exists evs. split; [exact Hl|apply saves_no_save; exact Hq].
  - destruct (eval_phase a test_dataloader epoch lT) as [r lE] eqn:E.
    simpl in H. subst r.
    pose proof (train_phase_quiet a train_dataloader epoch l) as (Hf & evs & Hl & Hq).
    pose proof (frozen_quiet _ _ (eval_phase_frozen a test_dataloader epoch lT))
      as (Hf' & evs' & Hl' & Hq').
    rewrite HT in Hf, Hl. rewrite E in Hf', Hl'. simpl in Hf, Hl, Hf', Hl'.
    unfold epoch_body. rewrite (bind_ok _ _ _ _ _ HT), (bind_err _ _ _ _ _ E). simpl.
    split; [reflexivity|]. split; [intros dir; rewrite Hf', Hf; reflexivity|].
    exists (evs ++ evs'). split.
    + rewrite Hl', Hl, app_assoc. reflexivity.
    + rewrite saves_app, (saves_no_save _ Hq), (saves_no_save _ Hq'). reflexivity.
Qed.

End ScriptProperties.

(** ** Sample runs for the further properties *)

Lemma train_step_uses_gradient_of_its_batch_only_witness :
  exists l2,
    train_step (cli "cifar10" 1) train_loader short_batch stale = (Ok tt, l2) /\
    model_grad stale = Some tt /\
    optimizer l2 = 1%nat.
Proof.
  destruct (forward_and_criterion (cli "cifar10" 1) true short_batch
              (set_images short_batch stale)) as [[ls|e] l1] eqn:H;
    [|vm_compute in H; discriminate].
  destruct (train_step_uses_gradient_of_its_batch_only (cli "cifar10" 1) train_loader
              short_batch stale l1 ls H) as (l2 & E & _ & Hstep & _).
  exists l2. split; [exact E|]. split; [reflexivity|].
  injection Hstep as Ho _. exact Ho.
Defined.

Lemma failing_batch_stops_the_training_loop_witness :
  for_each ([short_batch] ++ bad_batch :: [full_batch])
    (train_step (cli "cifar10" 1) train_loader) start =
    (Err (RuntimeError "shape mismatch"), failed_forward) /\
  model failed_forward = model after_one.
Proof.
  assert (Hdone : for_each [short_batch] (train_step (cli "cifar10" 1) train_loader) start =
                  (Ok tt, after_one)).
  { vm_compute. reflexivity. }
  assert (Hfail : forward_and_criterion (cli "cifar10" 1) true bad_batch
                    (set_images bad_batch after_one) =
                  (Err (RuntimeError "shape mismatch"), failed_forward)).
  { vm_compute. reflexivity. }
  destruct (failing_batch_stops_the_training_loop (cli "cifar10" 1) train_loader
              [short_batch] bad_batch [full_batch] start after_one failed_forward
              _ Hdone Hfail) as (Hloop & Hm & _).
  split; [exact Hloop|exact Hm].
Defined.

Lemma dataset_fixes_the_channel_count_witness :
  exists c, lib_args' = set_in_channels lib_args c /\ c = 3%Z.
Proof.
  assert (Hs : main_setup lib_args fresh =
               (Ok (lib_args', train_loader, test_loader, setup_locals), setup_world)).
  { vm_compute. reflexivity. }
  destruct (dataset_fixes_the_channel_count lib_args lib_args' fresh setup_world
              train_loader test_loader setup_locals Hs) as (c & Hc & Ha & _).
  exists c. split; [exact Ha|].
  destruct Hc as [[_ Hc]|[Hd _]]; [exact Hc|discriminate].
Defined.

Lemma batch_size_below_four_fails_at_the_loaders_witness :
  exists msg, (main no_globals small_batch_args fresh).1 = Err (ValueError msg).
Proof.
  destruct (batch_size_below_four_fails_at_the_loaders no_globals small_batch_args
              fresh "experiments/run/logs" eq_refl (or_intror eq_refl) eq_refl)
    as (msg & name & H).
  exists msg. rewrite H. reflexivity.
Defined.

Lemma no_epoch_returns_after_setup_witness :
  main no_globals zero_args fresh = (Ok tt, zero_world).
Proof.
  assert (Hs : main_setup zero_args fresh =
               (Ok (set_in_channels zero_args 3, train_loader, test_loader,
                    initial_locals (set_in_channels zero_args 3) rows zero_world),
                zero_world)).
  { vm_compute. reflexivity. }
  destruct (no_epoch_returns_after_setup no_globals zero_args _ fresh zero_world _ _ _ Hs)
    as (H & _).
  - vm_compute. discriminate.
  - exact H.
Defined.

Lemma rerun_reuses_directories_and_rewrites_config_witness :
  (script (cli "cifar10" 1) prepared).1 = Ok tt /\
  fs (script (cli "cifar10" 1) prepared).2 !! ["experiments"; "run"; "config.json"] =
    Some (File (ConfigJson (set_experiment_root (cli "cifar10" 1) "experiments/run"))).
Proof.
  rewrite (rerun_reuses_directories_and_rewrites_config (cli "cifar10" 1) prepared "run").
  - split; vm_compute; reflexivity.
  - reflexivity.
  - vm_compute. reflexivity.
  - vm_compute. reflexivity.
  - vm_compute. reflexivity.
  - vm_compute. discriminate.
Defined.


Lemma missing_experiment_name_is_a_type_error_witness :
  exists msg, script nameless fresh = (Err (TypeError msg), World (fs fresh) 987%Z []).
Proof.
  destruct (missing_experiment_name_is_a_type_error nameless fresh eq_refl) as (msg & H).
  exists msg. exact H.
Defined.

Lemma completed_run_keeps_one_checkpoint_per_epoch_witness :
  exists evs,
    log after_two_epochs = log fresh ++ evs /\
    map snd (saves evs) = [["experiments"; "0.pth"]; ["experiments"; "1.pth"]].
Proof.
  assert (H : main checkpoints_here two_epochs fresh = (Ok tt, after_two_epochs)).
  { vm_compute. reflexivity. }
  destruct (completed_run_keeps_one_checkpoint_per_epoch checkpoints_here two_epochs
              fresh after_two_epochs ["experiments"] eq_refl H)
    as (evs & Hl & Hp & _).
  exists evs. split; [exact Hl|]. rewrite Hp. vm_compute. reflexivity.
Defined.

Lemma training_phase_counts_from_zero_witness :
  exists bs,
    (batches train_loader (l_world setup_locals)).1 = Ok bs /\
    forall name m, name ∈ meter_names ->
      train_metric_logger after_train !! name = Some m ->
      m_count m = (Z.of_nat (length bs) * 4)%Z.
Proof.
  assert (HT : train_phase lib_args' train_loader 0 setup_locals = (Ok tt, after_train)).
  { vm_compute. reflexivity. }
  destruct (training_phase_counts_from_zero lib_args' train_loader 0 setup_locals
              after_train HT) as (bs & Hbs & Hc & _).
  exists bs. split; [exact Hbs|exact Hc].
Defined.

Lemma training_phase_logs_last_batch_and_trained_codebook_witness :
  images after_train = Some short_batch.
Proof.
  assert (HT : train_phase lib_args' train_loader 0 setup_locals = (Ok tt, after_train)).
  { vm_compute. reflexivity. }
  destruct (training_phase_logs_last_batch_and_trained_codebook lib_args' train_loader 0
              setup_locals after_train HT) as (bs & T & imgs & rec & Hbs & Hi & Hlast & _).
  rewrite Hi. f_equal. apply Hlast.
  vm_compute in Hbs. injection Hbs as <-. reflexivity.
Defined.

Lemma failed_phase_saves_no_checkpoint_witness :
  (epoch_body checkpoints_here (cli "cifar10" 1) bad_loader test_loader 0 start).1 =
    Err (RuntimeError "shape mismatch") /\
  fs (l_world (epoch_body checkpoints_here (cli "cifar10" 1) bad_loader test_loader 0
                 start).2) !! ["experiments"; "0.pth"] = None.
Proof.
  destruct (failed_phase_saves_no_checkpoint checkpoints_here (cli "cifar10" 1)
              bad_loader test_loader 0 start (RuntimeError "shape mismatch"))
    as (H & Hf & _).
  - left. vm_compute. reflexivity.
  - split; [exact H|].
    change ["experiments"; "0.pth"] with (checkpoint_file ["experiments"] 0).
    rewrite Hf. vm_compute. reflexivity.
Defined.
